(** * Rhino/Grasshopper MCP bridge: registry, dispatch and client

    A shallow embedding of the decorator registry ([tool_registry.py]),
    the bridge request routing ([rhino_bridge_server.py]) and the HTTP
    client wrapper ([bridge_client.py]), together with the properties the
    specification states about them.

    Python values are an inductive type, a Python call is a function into
    [result] (return or raise), module globals are record fields that are
    passed explicitly, and what a request handler puts on the wire is a
    list of events. *)

From Stdlib Require Import ZArith List String Ascii Bool Lia.
From stdpp Require Import base option list gmap strings sorting pretty.

#[local] Set Warnings "-register-all".

Open Scope string_scope.
Open Scope Z_scope.

(** ** Python values, exceptions and results *)

Module Py.

(** The values that travel between handlers, the server and the client.
    A dict keeps its insertion order; [PObj] is any other object (a host
    geometry object, a GUID, a set ...) known only by its type name. *)
Inductive PyVal : Type :=
| PNone
| PBool (b : bool)
| PInt (z : Z)
| PFloat (repr : string)
| PStr (s : string)
| PList (l : list PyVal)
| PDict (d : list (string * PyVal))
| PObj (type_name : string).

(** What [json.loads] can produce. *)
Inductive Json : Type :=
| JNull
| JBool (b : bool)
| JInt (z : Z)
| JFloat (repr : string)
| JStr (s : string)
| JArr (l : list Json)
| JObj (d : list (string * Json)).

Fixpoint of_json (j : Json) : PyVal :=
  match j with
  | JNull => PNone
  | JBool b => PBool b
  | JInt z => PInt z
  | JFloat r => PFloat r
  | JStr s => PStr s
  | JArr l => PList (List.map of_json l)
  | JObj d => PDict (List.map (fun kv => (fst kv, of_json (snd kv))) d)
  end.

(** [json.dumps] accepts exactly these values; on anything else it raises
    [TypeError]. *)
Fixpoint json_serializable (v : PyVal) : bool :=
  match v with
  | PNone | PBool _ | PInt _ | PFloat _ | PStr _ => true
  | PList l => forallb json_serializable l
  | PDict d => forallb (fun kv => json_serializable (snd kv)) d
  | PObj _ => false
  end.

(** [type(v).__name__] *)
Definition type_name_of (v : PyVal) : string :=
  match v with
  | PNone => "NoneType"
  | PBool _ => "bool"
  | PInt _ => "int"
  | PFloat _ => "float"
  | PStr _ => "str"
  | PList _ => "list"
  | PDict _ => "dict"
  | PObj n => n
  end.

(** [isinstance(v, dict)] *)
Definition is_dict (v : PyVal) : bool :=
  match v with PDict _ => true | _ => false end.

(** Dict operations on the insertion-ordered representation. *)
Fixpoint dict_get (k : string) (d : list (string * PyVal)) : option PyVal :=
  match d with
  | [] => None
  | (k', v) :: d' => if String.eqb k k' then Some v else dict_get k d'
  end.

Definition dict_has (k : string) (d : list (string * PyVal)) : bool :=
  match dict_get k d with Some _ => true | None => false end.

(** [d[k] = v]: replaces the value in place when the key is present and
    appends the item otherwise. *)
Fixpoint dict_set (k : string) (v : PyVal) (d : list (string * PyVal))
  : list (string * PyVal) :=
  match d with
  | [] => [(k, v)]
  | (k', v') :: d' =>
      if String.eqb k k' then (k', v) :: d' else (k', v') :: dict_set k v d'
  end.

(** Key lookup on a value: [None] when the value is not a dict or lacks
    the key. *)
Definition get_item (k : string) (v : PyVal) : option PyVal :=
  match v with PDict d => dict_get k d | _ => None end.

(** An exception object: [type(e).__name__], the qualified names of the
    classes in [type(e).__mro__], [str(e)], what [traceback.format_exc()]
    prints for it, and its extra attributes. *)
Record PyExc : Type := mkExc {
  exc_name : string;
  exc_mro : list string;
  exc_msg : string;
  exc_traceback : string;
  exc_attrs : list (string * PyVal)
}.

(** [isinstance(e, C)], the test an [except C] clause performs. *)
Definition isinstance (e : PyExc) (C : string) : bool :=
  existsb (String.eqb C) (exc_mro e).

Definition Exception : string := "builtins.Exception".

Inductive result (A : Type) : Type :=
| Return (a : A)
| Raise (e : PyExc).
Arguments Return {A} a.
Arguments Raise {A} e.

(** Built-in exceptions used below. *)
Definition base_mro : list string :=
  ["builtins.Exception"; "builtins.BaseException"; "builtins.object"].

Definition TypeError_ (msg : string) : PyExc :=
  mkExc "TypeError" ("builtins.TypeError" :: base_mro) msg "" [].

Definition KeyboardInterrupt_ : PyExc :=
  mkExc "KeyboardInterrupt"
        ["builtins.KeyboardInterrupt"; "builtins.BaseException"; "builtins.object"]
        "" "" [].

Definition SystemExit_ (code : string) : PyExc :=
  mkExc "SystemExit"
        ["builtins.SystemExit"; "builtins.BaseException"; "builtins.object"]
        code "" [].

(** *** String helpers for [str.split], [in], [str.strip] and slices *)

Definition newline : ascii := "010"%char.

(** [s.split('\n')] *)
Fixpoint split_lines_go (cur : string) (s : string) : list string :=
  match s with
  | EmptyString => [String.rev cur]
  | String a s' =>
      if Ascii.eqb a newline
      then String.rev cur :: split_lines_go "" s'
      else split_lines_go (String a cur) s'
  end.
Definition split_lines (s : string) : list string := split_lines_go "" s.

(** [sub in s] *)
Fixpoint contains (sub s : string) : bool :=
  String.prefix sub s ||
  match s with
  | EmptyString => false
  | String _ s' => contains sub s'
  end.

Fixpoint lstrip (s : string) : string :=
  match s with
  | String a s' => if Ascii.is_space a then lstrip s' else s
  | EmptyString => EmptyString
  end.

(** [s.strip()] *)
Definition strip (s : string) : string :=
  String.rev (lstrip (String.rev (lstrip s))).

(** [l[-n:]] for a positive [n] *)
Definition last_n {A} (n : nat) (l : list A) : list A :=
  List.skipn (List.length l - n) l.

(** [s[:n]] *)
Definition str_prefix (n : nat) (s : string) : string := String.substring 0 n s.

End Py.
Import Py.

(** ** tool_registry.py *)

Module ToolRegistry.

(** A synchronous Python function of one positional argument: its
    [__name__] and what calling it does. *)
Record PyFunc : Type := mkFunc {
  fn_name : string;
  fn_call : PyVal -> result PyVal
}.

(** Constants of the interpreter the registry runs in:
    [os.path.dirname(__file__)] and [sys.version]. *)
Record Host : Type := mkHost {
  tools_dir : string;
  sys_version : string
}.

Record ToolDefinition : Type := mkTool {
  name : string;
  description : string;
  function : string;   (* the coroutine function, by its __name__ *)
  tool_type : string
}.

(** The four global registries. *)
Record Registry : Type := mkRegistry {
  _rhino_tools : list ToolDefinition;
  _gh_tools : list ToolDefinition;
  _custom_tools : list ToolDefinition;
  _bridge_handlers : gmap string PyFunc
}.

Definition empty_registry : Registry := mkRegistry [] [] [] ∅.

(** [x if x else y] on an optional string argument: [None] and the empty
    string are falsy. *)
Definition or_else (x : option string) (y : string) : string :=
  match x with
  | Some s => if String.eqb s "" then y else s
  | None => y
  end.

(** [@rhino_tool(name, description)] applied to [func]. *)
Definition rhino_tool (name description : option string) (func : string)
    (r : Registry) : Registry :=
  let tool_def :=
    mkTool (or_else name func)
           (or_else description ("Rhino tool: " ++ func)) func "rhino" in
  mkRegistry (_rhino_tools r ++ [tool_def]) (_gh_tools r) (_custom_tools r)
             (_bridge_handlers r).

(** [@gh_tool(name, description)] applied to [func]. *)
Definition gh_tool (name description : option string) (func : string)
    (r : Registry) : Registry :=
  let tool_def :=
    mkTool (or_else name func)
           (or_else description ("Grasshopper tool: " ++ func)) func
           "grasshopper" in
  mkRegistry (_rhino_tools r) (_gh_tools r ++ [tool_def]) (_custom_tools r)
             (_bridge_handlers r).

(** [@custom_tool(name, description)] applied to [func]. *)
Definition custom_tool (name description : option string) (func : string)
    (r : Registry) : Registry :=
  let tool_def :=
    mkTool (or_else name func)
           (or_else description ("Custom tool: " ++ func)) func "custom" in
  mkRegistry (_rhino_tools r) (_gh_tools r) (_custom_tools r ++ [tool_def])
             (_bridge_handlers r).

(** The loop over the traceback lines that picks [file_line_info]. *)
Fixpoint find_file_line (tools_dir : string) (tb_lines : list string) : string :=
  match tb_lines with
  | [] => "Unknown"
  | line :: rest =>
      if contains "File" line && contains ".py" line &&
         (contains "Tools" line || contains tools_dir line)
      then strip line
      else find_file_line tools_dir rest
  end.

(** The dict returned when the handler's result is not a dict. *)
Definition invalid_return (endpoint : string) (func : PyFunc) (res : PyVal)
  : PyVal :=
  let error_msg :=
    "Handler " ++ fn_name func ++ " returned non-dict type: " ++ type_name_of res in
  PDict [ ("success", PBool false);
          ("error", PStr error_msg);
          ("error_type", PStr "InvalidReturnType");
          ("endpoint", PStr endpoint);
          ("handler_function", PStr (fn_name func));
          ("returned_type", PStr ("<class '" ++ type_name_of res ++ "'>"));
          ("debug_hint",
           PStr "Bridge handlers must return a dictionary with at least a 'success' key") ].

(** The dict returned from the [except Exception as e] clause. *)
Definition exception_response (H : Host) (endpoint : string) (func : PyFunc)
    (data : PyVal) (e : PyExc) : PyVal :=
  let error_traceback := exc_traceback e in
  let error_type := exc_name e in
  let error_msg := exc_msg e in
  let tb_lines := split_lines error_traceback in
  let file_line_info := find_file_line (tools_dir H) tb_lines in
  PDict [ ("success", PBool false);
          ("error", PStr (error_type ++ ": " ++ error_msg));
          ("error_type", PStr error_type);
          ("error_message", PStr error_msg);
          ("endpoint", PStr endpoint);
          ("handler_function", PStr (fn_name func));
          ("file_line", PStr file_line_info);
          ("traceback", PStr error_traceback);
          ("traceback_lines", PList (List.map PStr (last_n 10 tb_lines)));
          ("request_data", data);
          ("python_version", PStr (sys_version H));
          ("debug_hint",
           PStr "An exception occurred in the bridge handler. See 'traceback' field for full details and check Rhino Python console.") ].

(** The body of [wrapper] inside [bridge_handler], called with one
    positional argument.  Its console output is not modelled. *)
Definition wrapper_call (H : Host) (endpoint : string) (func : PyFunc)
    (data : PyVal) : result PyVal :=
  match fn_call func data with
  | Return res =>
      match res with
      | PDict d =>
          if dict_has "success" d then Return res
          else Return (PDict (dict_set "success" (PBool true) d))
      | _ => Return (invalid_return endpoint func res)
      end
  | Raise e =>
      if isinstance e Exception
      then Return (exception_response H endpoint func data e)
      else Raise e
  end.

(** [wrapper], which [functools.wraps] gives the name of [func]. *)
Definition wrapper (H : Host) (endpoint : string) (func : PyFunc) : PyFunc :=
  mkFunc (fn_name func) (wrapper_call H endpoint func).

(** [@bridge_handler(endpoint)] applied to [func]: registers the wrapper
    under [endpoint]. *)
Definition bridge_handler (H : Host) (endpoint : string) (func : PyFunc)
    (r : Registry) : Registry :=
  mkRegistry (_rhino_tools r) (_gh_tools r) (_custom_tools r)
             (<[endpoint := wrapper H endpoint func]> (_bridge_handlers r)).

(** *** Module import and [discover_tools] *)

(** A top-level statement of a tool module, as far as the registries see
    it: a decorated definition, or a statement that raises. *)
Inductive Stmt : Type :=
| SRhinoTool (name description : option string) (func : string)
| SGhTool (name description : option string) (func : string)
| SCustomTool (name description : option string) (func : string)
| SBridgeHandler (endpoint : string) (func : PyFunc)
| SRaise (e : PyExc).

(** What the interpreter finds on disk: [os.listdir(tools_dir)], and the
    source a module name resolves to from a working directory ([None] when
    the finder fails). *)
Record ImportEnv : Type := mkEnv {
  listdir : list string;
  find_module : string -> string -> option (list Stmt)
}.

(** Lines printed on the console, by kind. *)
Inductive Msg : Type :=
| MScanning (dir : string)
| MFound (files : list string)
| MLoaded (module_name : string) (tools_prefix : bool)
| MReloaded (module_name : string) (tools_prefix : bool)
| MWarning (module_name : string) (e : PyExc)
| MRegistered (n_rhino n_gh n_custom n_handlers : nat).

(** The interpreter state the discovery touches.  [decorated] is a history
    variable: the decorator applications executed so far, oldest first. *)
Record World : Type := mkWorld {
  registry : Registry;
  sys_modules : gset string;
  cwd : string;
  console : list Msg;
  decorated : list Stmt
}.

Definition set_registry (r : Registry) (w : World) : World :=
  mkWorld r (sys_modules w) (cwd w) (console w) (decorated w).
Definition set_sys_modules (m : gset string) (w : World) : World :=
  mkWorld (registry w) m (cwd w) (console w) (decorated w).
Definition chdir (d : string) (w : World) : World :=
  mkWorld (registry w) (sys_modules w) d (console w) (decorated w).
Definition print (m : Msg) (w : World) : World :=
  mkWorld (registry w) (sys_modules w) (cwd w) (console w ++ [m]) (decorated w).
Definition record_decorated (s : Stmt) (w : World) : World :=
  mkWorld (registry w) (sys_modules w) (cwd w) (console w) (decorated w ++ [s]).

(** The effect of one decorator application on the registries. *)
Definition apply_decorator (H : Host) (s : Stmt) (r : Registry) : Registry :=
  match s with
  | SRhinoTool n d f => rhino_tool n d f r
  | SGhTool n d f => gh_tool n d f r
  | SCustomTool n d f => custom_tool n d f r
  | SBridgeHandler ep f => bridge_handler H ep f r
  | SRaise _ => r
  end.

(** Executing a module body: statements run in order until one raises. *)
Fixpoint exec_body (H : Host) (body : list Stmt) (w : World)
  : World * result unit :=
  match body with
  | [] => (w, Return tt)
  | SRaise e :: _ => (w, Raise e)
  | s :: rest =>
      exec_body H rest
        (record_decorated s (set_registry (apply_decorator H s (registry w)) w))
  end.

Definition ImportError : string := "builtins.ImportError".

Definition ModuleNotFoundError_ (module_name : string) : PyExc :=
  mkExc "ModuleNotFoundError"
        ("builtins.ModuleNotFoundError" :: "builtins.ImportError" :: base_mro)
        ("No module named '" ++ module_name ++ "'") "" [].

(** [importlib.import_module(name)]: nothing runs when the module is in
    [sys.modules]; otherwise its body runs, and the module is dropped from
    [sys.modules] again when the body raises. *)
Definition import_module (H : Host) (E : ImportEnv) (name : string) (w : World)
  : World * result unit :=
  if bool_decide (name ∈ sys_modules w) then (w, Return tt)
  else
    match find_module E (cwd w) name with
    | None => (w, Raise (ModuleNotFoundError_ name))
    | Some body =>
        match exec_body H body (set_sys_modules ({[name]} ∪ sys_modules w) w) with
        | (w', Return _) => (w', Return tt)
        | (w', Raise e) => (set_sys_modules (sys_modules w' ∖ {[name]}) w', Raise e)
        end
    end.

(** [importlib.reload(module)]: the body runs again; the module stays in
    [sys.modules] whatever happens. *)
Definition reload (H : Host) (E : ImportEnv) (name : string) (w : World)
  : World * result unit :=
  match find_module E (cwd w) name with
  | None => (w, Raise (ModuleNotFoundError_ name))
  | Some body => exec_body H body w
  end.

(** One import attempt of the loop body: import, then reload only when
    the module had been imported before. *)
Definition import_attempt (H : Host) (E : ImportEnv)
    (import_name module_name : string) (tools_prefix : bool) (w : World)
  : World * result unit :=
  let module_already_imported := bool_decide (import_name ∈ sys_modules w) in
  match import_module H E import_name w with
  | (w1, Raise e) => (w1, Raise e)
  | (w1, Return _) =>
      if module_already_imported then
        match reload H E import_name w1 with
        | (w2, Raise e) => (w2, Raise e)
        | (w2, Return _) => (print (MReloaded module_name tools_prefix) w2, Return tt)
        end
      else (print (MLoaded module_name tools_prefix) w1, Return tt)
  end.

(** The body of the loop over [discovered_files], for one module name. *)
Definition discover_one (H : Host) (E : ImportEnv) (module_name : string)
    (w : World) : World * result unit :=
  let original_cwd := cwd w in
  let '(w1, r) :=
    match import_attempt H E module_name module_name false (chdir (tools_dir H) w) with
    | (w1, Raise e) =>
        if isinstance e ImportError
        then import_attempt H E ("Tools." ++ module_name) module_name true
                            (chdir original_cwd w1)
        else (w1, Raise e)
    | (w1, Return _) => (w1, Return tt)
    end in
  let w2 := chdir original_cwd w1 in
  match r with
  | Return _ => (w2, Return tt)
  | Raise e =>
      if isinstance e Exception
      then (print (MWarning module_name e) w2, Return tt)
      else (w2, Raise e)
  end.

(** [filename[:-3]] *)
Definition module_name_of (filename : string) : string :=
  str_prefix (String.length filename - 3) filename.

Fixpoint discover_loop (H : Host) (E : ImportEnv) (files : list string)
    (w : World) : World * result unit :=
  match files with
  | [] => (w, Return tt)
  | filename :: rest =>
      match discover_one H E (module_name_of filename) w with
      | (w', Return _) => discover_loop H E rest w'
      | (w', Raise e) => (w', Raise e)
      end
  end.

(** [filename.endswith(suffix)] *)
Definition endswith (suffix filename : string) : bool :=
  String.prefix (String.rev suffix) (String.rev filename).

Definition is_tool_file (filename : string) : bool :=
  endswith ".py" filename &&
  negb (String.eqb filename "__init__.py") &&
  negb (String.eqb filename "tool_registry.py").

Definition discovered_files (E : ImportEnv) : list string :=
  List.filter is_tool_file (listdir E).

(** The dict [discover_tools] returns. *)
Definition registries_dict (r : Registry) : list (string * list ToolDefinition) :=
  [ ("rhino", _rhino_tools r);
    ("grasshopper", _gh_tools r);
    ("custom", _custom_tools r) ].

Definition discover_tools (H : Host) (E : ImportEnv) (w : World)
  : World * result (list (string * list ToolDefinition)) :=
  let w0 := set_registry empty_registry w in
  let w1 := print (MScanning (tools_dir H)) w0 in
  let w2 := print (MFound (discovered_files E)) w1 in
  match discover_loop H E (discovered_files E) w2 with
  | (w3, Raise e) => (w3, Raise e)
  | (w3, Return _) =>
      let r := registry w3 in
      (print (MRegistered (List.length (_rhino_tools r)) (List.length (_gh_tools r))
                          (List.length (_custom_tools r)) (size (_bridge_handlers r)))
             w3,
       Return (registries_dict r))
  end.

(** The registries after applying decorator applications in order. *)
Definition replay (H : Host) (stmts : list Stmt) (r : Registry) : Registry :=
  fold_left (fun r s => apply_decorator H s r) stmts r.

(** The first statement of a module body that raises, if any. *)
Fixpoint first_raise (body : list Stmt) : option PyExc :=
  match body with
  | [] => None
  | SRaise e :: _ => Some e
  | _ :: rest => first_raise rest
  end.

(** The statements of a module body that run. *)
Fixpoint executed (body : list Stmt) : list Stmt :=
  match body with
  | [] => []
  | SRaise e :: _ => []
  | s :: rest => s :: executed rest
  end.

(** A console line that reports on the module [module_name]. *)
Definition reports (module_name : string) (m : Msg) : Prop :=
  match m with
  | MLoaded n _ | MReloaded n _ => n = module_name
  | MWarning n e => n = module_name /\ isinstance e Exception = true
  | _ => False
  end.

(** [w'] is [w] after some more decorator applications. *)
Definition extends (H : Host) (w w' : World) : Prop :=
  exists new, decorated w' = (decorated w ++ new)%list /\
              registry w' = replay H new (registry w).

(** No tool module on disk raises anything but an [Exception] when its
    body runs. *)
Definition raises_only_Exception (E : ImportEnv) : Prop :=
  forall cwd name body e,
    find_module E cwd name = Some body -> first_raise body = Some e ->
    isinstance e Exception = true.

(** What the import machinery guarantees of a step from [w] to [w']:
    only decorator applications touch the registries, the console and
    the working directory stay as they are, and a raised exception comes
    from the finder or from a module body. *)
Definition import_post (H : Host) (E : ImportEnv) (w : World)
    (out : World * result unit) : Prop :=
  extends H w (fst out) /\ console (fst out) = console w /\
  cwd (fst out) = cwd w /\
  forall e, snd out = Raise e -> raises_only_Exception E ->
            isinstance e Exception = true.

(** [get_bridge_handlers()], as a value: the items of [_bridge_handlers]. *)
Definition get_bridge_handlers (w : World) : gmap string PyFunc :=
  _bridge_handlers (registry w).

End ToolRegistry.
Import ToolRegistry.

(** ** rhino_bridge_server.py *)

Module BridgeServer.

(** Library calls of the request handler: [urllib.parse.urlparse(p).path]
    (taken as total on request paths), [int(s)] on a header value, and
    [json.loads(b.decode('utf-8'))]. *)
Record Libs : Type := mkLibs {
  urlparse_path : string -> string;
  py_int : string -> result Z;
  json_loads_utf8 : string -> result Json
}.

Definition JSONDecodeError : string := "json.decoder.JSONDecodeError".

(** The module globals of the server, with the interpreter state the
    discovery works on. *)
Record Server : Type := mkServer {
  DYNAMIC_HANDLERS_AVAILABLE : bool;
  RHINO_AVAILABLE : bool;
  GRASSHOPPER_AVAILABLE : bool;
  _handlers_initialized : bool;
  _dynamic_handlers : gmap string PyFunc;
  world : World
}.

(** An incoming request: [self.path], the Content-Length header when
    present, and the bytes waiting on [self.rfile]. *)
Record Request : Type := mkRequest {
  path : string;
  content_length : option string;
  rfile : string
}.

(** What a request handler does that others can observe: calling a
    registered handler, flushing a status line with its headers, writing a
    JSON body. *)
Inductive Event : Type :=
| Invoke (endpoint : string) (data : PyVal)
| SendHeaders (status : Z)
| WriteBody (v : PyVal).

(** The type [json.dumps] names in its [TypeError]. *)
Fixpoint offending_type (v : PyVal) : option string :=
  match v with
  | PObj n => Some n
  | PList l =>
      (fix go (l : list PyVal) : option string :=
         match l with
         | [] => None
         | x :: r => match offending_type x with Some n => Some n | None => go r end
         end) l
  | PDict d =>
      (fix go (d : list (string * PyVal)) : option string :=
         match d with
         | [] => None
         | (_, x) :: r => match offending_type x with Some n => Some n | None => go r end
         end) d
  | _ => None
  end.

Definition not_serializable (v : PyVal) : PyExc :=
  TypeError_ ("Object of type " ++ default "object" (offending_type v) ++
              " is not JSON serializable").

(** [send_json_response]: the status line and headers are flushed by
    [end_headers()] before [json.dumps] runs. *)
Definition send_json_response (data : PyVal) (status_code : Z)
  : list Event * result unit :=
  if json_serializable data
  then ([SendHeaders status_code; WriteBody data], Return tt)
  else ([SendHeaders status_code], Raise (not_serializable data)).

Definition send_error_response (status_code : Z) (message : string)
  : list Event * result unit :=
  send_json_response
    (PDict [ ("success", PBool false);
             ("error", PStr message);
             ("status_code", PInt status_code) ])
    status_code.

(** [initialize_dynamic_handlers]; its console output is not modelled. *)
Definition initialize_dynamic_handlers (H : Host) (E : ImportEnv) (s : Server)
  : Server * result unit :=
  if _handlers_initialized s || negb (DYNAMIC_HANDLERS_AVAILABLE s)
  then (s, Return tt)
  else
    match discover_tools H E (world s) with
    | (w, Return _) =>
        let handlers := get_bridge_handlers w in
        (mkServer (DYNAMIC_HANDLERS_AVAILABLE s) (RHINO_AVAILABLE s)
                  (GRASSHOPPER_AVAILABLE s) true
                  (handlers ∪ _dynamic_handlers s) w,
         Return tt)
    | (w, Raise e) =>
        let s' := mkServer (DYNAMIC_HANDLERS_AVAILABLE s) (RHINO_AVAILABLE s)
                           (GRASSHOPPER_AVAILABLE s) (_handlers_initialized s)
                           (_dynamic_handlers s) w in
        if isinstance e Exception then (s', Return tt) else (s', Raise e)
    end.

(** [if not _handlers_initialized: initialize_dynamic_handlers()] *)
Definition ensure_initialized (H : Host) (E : ImportEnv) (s : Server)
  : Server * result unit :=
  if _handlers_initialized s then (s, Return tt)
  else initialize_dynamic_handlers H E s.

(** [sorted(_dynamic_handlers.keys())] *)
Definition sorted_endpoints (handlers : gmap string PyFunc) : list string :=
  merge_sort String.le (List.map fst (map_to_list handlers)).

Definition status_response (s : Server) : PyVal :=
  PDict [ ("status", PStr "running");
          ("rhino_available", PBool (RHINO_AVAILABLE s));
          ("grasshopper_available", PBool (GRASSHOPPER_AVAILABLE s));
          ("message", PStr "Rhino Bridge Server is running") ].

Definition endpoint_entry (path method description : string) : PyVal :=
  PDict [ ("path", PStr path); ("method", PStr method);
          ("description", PStr description) ].

Definition info_response (s : Server) : PyVal :=
  PDict [ ("name", PStr "Rhino HTTP Bridge Server");
          ("version", PStr "2.0.0");
          ("author", PStr "Hossein Zargar");
          ("endpoints",
           PList ([ endpoint_entry "/status" "GET" "Server status";
                    endpoint_entry "/info" "GET" "Server information" ] ++
                  List.map (fun ep => endpoint_entry ep "POST"
                                        ("Dynamic handler for " ++ ep))
                           (sorted_endpoints (_dynamic_handlers s))));
          ("dynamic_handlers", PInt (Z.of_nat (size (_dynamic_handlers s)))) ].

Definition do_GET (H : Host) (E : ImportEnv) (s : Server) (req : Request)
  : Server * list Event * result unit :=
  if String.eqb (path req) "/status" then
    let '(ev, r) := send_json_response (status_response s) 200 in (s, ev, r)
  else if String.eqb (path req) "/info" then
    match ensure_initialized H E s with
    | (s1, Raise e) => (s1, [], Raise e)
    | (s1, Return _) =>
        let '(ev, r) := send_json_response (info_response s1) 200 in (s1, ev, r)
    end
  else
    let '(ev, r) := send_error_response 404 "Endpoint not found" in (s, ev, r).

Definition do_OPTIONS (s : Server) (req : Request)
  : Server * list Event * result unit :=
  (s, [SendHeaders 200], Return tt).

(** The error bodies of [do_POST]. *)
Definition handler_error_response (endpoint : string) (request_data : PyVal)
    (e : PyExc) : PyVal :=
  PDict [ ("success", PBool false);
          ("error", PStr ("Handler error: " ++ exc_msg e));
          ("error_type", PStr (exc_name e));
          ("endpoint", PStr endpoint);
          ("traceback", PStr (exc_traceback e));
          ("request_data", request_data);
          ("debug_hint",
           PStr "An exception occurred in the Rhino bridge handler. Check the Rhino Python console for full traceback.") ].

Definition not_found_response (endpoint : string)
    (handlers : gmap string PyFunc) : PyVal :=
  PDict [ ("success", PBool false);
          ("error", PStr ("Unknown endpoint: " ++ endpoint));
          ("error_type", PStr "EndpointNotFound");
          ("endpoint", PStr endpoint);
          ("available_endpoints", PList (List.map PStr (sorted_endpoints handlers)));
          ("debug_hint",
           PStr ("The endpoint '" ++ endpoint ++
                 "' is not registered. Check if the handler is properly decorated with @bridge_handler.")) ].

Definition json_error_response (endpoint : string) (e : PyExc) : PyVal :=
  PDict [ ("success", PBool false);
          ("error", PStr "Invalid JSON in request body");
          ("error_type", PStr "JSONDecodeError");
          ("error_details", PStr (exc_msg e));
          ("endpoint", PStr endpoint);
          ("debug_hint",
           PStr "The request body is not valid JSON. Check the request formatting.") ].

Definition internal_error_response (endpoint : string) (request_data : PyVal)
    (e : PyExc) : PyVal :=
  PDict [ ("success", PBool false);
          ("error", PStr ("Internal server error: " ++ exc_msg e));
          ("error_type", PStr (exc_name e));
          ("endpoint", PStr endpoint);
          ("traceback", PStr (exc_traceback e));
          ("request_data", request_data);
          ("debug_hint",
           PStr "An unexpected error occurred in the bridge server. Check the Rhino Python console for details.") ].

(** The two [except] clauses of the outer [try] of [do_POST], entered with
    the events [evs] already produced. *)
Definition outer_except (endpoint : string) (request_data : PyVal)
    (evs : list Event) (e : PyExc) : list Event * result unit :=
  if isinstance e JSONDecodeError then
    let '(ev, r) := send_json_response (json_error_response endpoint e) 400 in
    ((evs ++ ev)%list, r)
  else if isinstance e Exception then
    let '(ev, r) :=
      send_json_response (internal_error_response endpoint request_data e) 500 in
    ((evs ++ ev)%list, r)
  else (evs, Raise e).

(** The [except Exception] clause of the inner [try], around the handler
    call and the sending of its result. *)
Definition inner_except (endpoint : string) (request_data : PyVal)
    (evs : list Event) (e : PyExc) : list Event * result unit :=
  if isinstance e Exception then
    match send_json_response (handler_error_response endpoint request_data e) 500 with
    | (ev, Return _) => ((evs ++ ev)%list, Return tt)
    | (ev, Raise e') => outer_except endpoint request_data (evs ++ ev)%list e'
    end
  else outer_except endpoint request_data evs e.

(** The part of [do_POST] after the request body has been read. *)
Definition dispatch (handlers : gmap string PyFunc) (endpoint : string)
    (request_data : PyVal) : list Event * result unit :=
  match handlers !! endpoint with
  | Some handler_func =>
      let evs := [Invoke endpoint request_data] in
      match fn_call handler_func request_data with
      | Return res =>
          match send_json_response res 200 with
          | (ev, Return _) => ((evs ++ ev)%list, Return tt)
          | (ev, Raise e) => inner_except endpoint request_data (evs ++ ev)%list e
          end
      | Raise e => inner_except endpoint request_data evs e
      end
  | None =>
      match send_json_response (not_found_response endpoint handlers) 404 with
      | (ev, Return _) => (ev, Return tt)
      | (ev, Raise e) => outer_except endpoint request_data ev e
      end
  end.

(** Reading the request body: [int(self.headers.get('Content-Length', 0))]
    and, when it is positive, parsing that many bytes of [rfile]. *)
Definition content_length_value (L : Libs) (req : Request) : result Z :=
  match content_length req with
  | None => Return 0
  | Some h => py_int L h
  end.

Definition read_request_data (L : Libs) (req : Request) : result PyVal :=
  match content_length_value L req with
  | Raise e => Raise e
  | Return n =>
      if 0 <? n then
        match json_loads_utf8 L (str_prefix (Z.to_nat n) (rfile req)) with
        | Return j => Return (of_json j)
        | Raise e => Raise e
        end
      else Return (PDict [])
  end.

Definition do_POST (H : Host) (E : ImportEnv) (L : Libs) (s : Server)
    (req : Request) : Server * list Event * result unit :=
  match ensure_initialized H E s with
  | (s1, Raise e) =>
      let '(ev, r) := outer_except "unknown" PNone [] e in (s1, ev, r)
  | (s1, Return _) =>
      let endpoint := urlparse_path L (path req) in
      match read_request_data L req with
      | Raise e =>
          let '(ev, r) := outer_except endpoint PNone [] e in (s1, ev, r)
      | Return request_data =>
          let '(ev, r) := dispatch (_dynamic_handlers s1) endpoint request_data in
          (s1, ev, r)
      end
  end.

Definition is_invoke (ev : Event) : bool :=
  match ev with Invoke _ _ => true | _ => false end.

End BridgeServer.
Import BridgeServer.

(** ** bridge_client.py *)

Module BridgeClient.

(** A [requests.Response]: the status code, the body text, the
    content-type header when present, and what [response.json()] does. *)
Record Response : Type := mkResponse {
  status_code : Z;
  text : string;
  content_type : option string;
  json : result PyVal
}.

(** The [requests] library on the network of the moment. *)
Record Requests : Type := mkRequests {
  requests_get : string -> result Response;
  requests_post : string -> PyVal -> result Response
}.

(** The HTTP requests the client asks the library to perform. *)
Inductive Call : Type :=
| GET (url : string)
| POST (url : string) (json_body : PyVal).

Definition ConnectionError : string := "requests.exceptions.ConnectionError".
Definition Timeout : string := "requests.exceptions.Timeout".
Definition HTTPError : string := "requests.exceptions.HTTPError".
Definition RequestException : string := "requests.exceptions.RequestException".
Definition JSONDecodeError : string := "json.decoder.JSONDecodeError".

(** [response.ok] is false exactly on the 4xx and 5xx codes. *)
Definition is_error_status (r : Response) : bool :=
  (400 <=? status_code r) && (status_code r <? 600).

(** The exception [response.raise_for_status()] raises. *)
Definition HTTPError_ (r : Response) (url : string) : PyExc :=
  mkExc "HTTPError"
        ("requests.exceptions.HTTPError" :: "requests.exceptions.RequestException" ::
         "builtins.OSError" :: base_mro)
        (pretty (status_code r) ++ " Error for url: " ++ url) "" [].

(** The truth value of the local variable [response]: [None] is falsy and
    a response object is truthy exactly when it is [ok]. *)
Definition truthy (response : option Response) : option Response :=
  match response with
  | Some r => if is_error_status r then None else Some r
  | None => None
  end.

Definition attr_or_none (a : string) (e : PyExc) : PyVal :=
  default PNone (dict_get a (exc_attrs e)).

(** The [except] clauses of [call_bridge_api], in their order. *)
Definition handle_error (BRIDGE_URL endpoint : string) (data : option PyVal)
    (response : option Response) (e : PyExc) : result PyVal :=
  let request_data := default PNone data in
  if isinstance e ConnectionError then
    Return (PDict [
      ("success", PBool false);
      ("error", PStr ("Cannot connect to Rhino Bridge Server at " ++ BRIDGE_URL ++
                      ". Make sure the bridge server is running in Rhino."));
      ("error_type", PStr "ConnectionError");
      ("endpoint", PStr endpoint);
      ("bridge_url", PStr BRIDGE_URL) ])
  else if isinstance e Timeout then
    Return (PDict [
      ("success", PBool false);
      ("error", PStr "Request to Rhino Bridge Server timed out after 10 seconds");
      ("error_type", PStr "Timeout");
      ("endpoint", PStr endpoint);
      ("request_data", request_data) ])
  else if isinstance e HTTPError then
    let status :=
      match truthy response with
      | Some r => PInt (status_code r) | None => PStr "unknown" end in
    let status_str :=
      match truthy response with
      | Some r => pretty (status_code r) | None => "unknown" end in
    let response_text :=
      match truthy response with Some r => text r | None => "No response" end in
    Return (PDict [
      ("success", PBool false);
      ("error", PStr ("HTTP " ++ status_str ++ " error from bridge server"));
      ("error_type", PStr "HTTPError");
      ("status_code", status);
      ("endpoint", PStr endpoint);
      ("response_body", PStr (str_prefix 1000 response_text));
      ("request_data", request_data) ])
  else if isinstance e RequestException then
    let response_text :=
      match truthy response with Some r => text r | None => "No response" end in
    Return (PDict [
      ("success", PBool false);
      ("error", PStr ("Bridge API request failed: " ++ exc_msg e));
      ("error_type", PStr "RequestException");
      ("endpoint", PStr endpoint);
      ("response_body",
       if String.eqb response_text "" then PNone
       else PStr (str_prefix 1000 response_text));
      ("request_data", request_data) ])
  else if isinstance e JSONDecodeError then
    let response_text :=
      match truthy response with Some r => text r | None => "" end in
    let response_status :=
      match truthy response with
      | Some r => PInt (status_code r) | None => PStr "unknown" end in
    let response_content_type :=
      match truthy response with
      | Some r => default "unknown" (content_type r) | None => "unknown" end in
    Return (PDict [
      ("success", PBool false);
      ("error", PStr ("Bridge API request failed: " ++ exc_msg e));
      ("error_type", PStr "JSONDecodeError");
      ("error_details",
       PDict [ ("message", PStr (exc_msg e));
               ("line", attr_or_none "lineno" e);
               ("column", attr_or_none "colno" e) ]);
      ("endpoint", PStr endpoint);
      ("request_data", request_data);
      ("response_status", response_status);
      ("response_body", PStr (str_prefix 1000 response_text));
      ("response_content_type", PStr response_content_type);
      ("debug_hint",
       PStr "The bridge server returned a non-JSON response. This may indicate a Python error in the handler or the endpoint doesn't exist.") ])
  else Raise e.

(** [call_bridge_api(endpoint, data)]: the library calls it makes and its
    outcome.  Logging is not modelled. *)
Definition call_bridge_api (R : Requests) (BRIDGE_URL endpoint : string)
    (data : option PyVal) : list Call * result PyVal :=
  let url := BRIDGE_URL ++ endpoint in
  let '(call, sent) :=
    match data with
    | None => (GET url, requests_get R url)
    | Some d => (POST url d, requests_post R url d)
    end in
  match sent with
  | Raise e => ([call], handle_error BRIDGE_URL endpoint data None e)
  | Return r =>
      if is_error_status r
      then ([call], handle_error BRIDGE_URL endpoint data (Some r) (HTTPError_ r url))
      else
        match json r with
        | Return v => ([call], Return v)
        | Raise e => ([call], handle_error BRIDGE_URL endpoint data (Some r) e)
        end
  end.

(** The failure kinds the client names, with the class each [except]
    clause tests. *)
Definition handled_kinds : list (string * string) :=
  [ ("ConnectionError", ConnectionError);
    ("Timeout", Timeout);
    ("HTTPError", HTTPError);
    ("RequestException", RequestException);
    ("JSONDecodeError", JSONDecodeError) ].

(** [e] is a connection error, a timeout, an HTTP error, another
    [requests] exception or a JSON decoding error. *)
Definition is_handled (e : PyExc) : Prop :=
  exists kind C, In (kind, C) handled_kinds /\ isinstance e C = true.

(** [out] is a returned error dict for the failure [e] at [endpoint]. *)
Definition is_error_reply (endpoint : string) (e : PyExc) (out : result PyVal)
  : Prop :=
  exists d msg kind C,
    out = Return (PDict d) /\
    dict_get "success" d = Some (PBool false) /\
    dict_get "error" d = Some (PStr msg) /\
    dict_get "error_type" d = Some (PStr kind) /\
    In (kind, C) handled_kinds /\ isinstance e C = true /\
    dict_get "endpoint" d = Some (PStr endpoint).

(** The library call [call_bridge_api] makes for [data]. *)
Definition sent (R : Requests) (url : string) (data : option PyVal)
  : result Response :=
  match data with
  | None => requests_get R url
  | Some d => requests_post R url d
  end.

End BridgeClient.
Import BridgeClient.

(** ** The tool functions of rhino_tools.py and gh_tools.py *)

Module Tools.

(** An invocation of one of the registered tools that forward to the
    bridge, with its arguments. *)
Inductive ToolCall : Type :=
| draw_line_rhino (start_x start_y start_z end_x end_y end_z : PyVal)
| get_active_gh_files
| list_grasshopper_sliders (file_name : PyVal)
| generate_building_massing
    (footprint_points core_center core_width core_height core_rotation
     building_height number_of_floors floor_to_floor_height : PyVal)
| list_gh_files
| set_grasshopper_slider (file_name slider_name new_value : PyVal)
| list_eml_parameters
| get_eml_parameter_value (parameter_name : PyVal)
| set_eml_parameter_value (parameter_name value : PyVal)
| suggest_eml_connections.

(** The endpoint and the [data] argument each tool passes to
    [call_bridge_api]. *)
Definition bridge_arguments (t : ToolCall) : string * option PyVal :=
  match t with
  | draw_line_rhino sx sy sz ex ey ez =>
      ("/draw_line",
       Some (PDict [ ("start_x", sx); ("start_y", sy); ("start_z", sz);
                     ("end_x", ex); ("end_y", ey); ("end_z", ez) ]))
  | get_active_gh_files => ("/get_active_gh_files", Some (PDict []))
  | list_grasshopper_sliders file_name =>
      ("/list_sliders", Some (PDict [ ("file_name", file_name) ]))
  | generate_building_massing fp cc cw ch cr bh nf ffh =>
      ("/generate_building_massing",
       Some (PDict [ ("footprint_points", fp); ("core_center", cc);
                     ("core_width", cw); ("core_height", ch);
                     ("core_rotation", cr); ("building_height", bh);
                     ("number_of_floors", nf);
                     ("floor_to_floor_height", ffh) ]))
  | list_gh_files => ("/list_gh_files", Some (PDict []))
  | set_grasshopper_slider file_name slider_name new_value =>
      ("/set_slider",
       Some (PDict [ ("file_name", file_name); ("slider_name", slider_name);
                     ("new_value", new_value) ]))
  | list_eml_parameters => ("/list_eml_parameters", Some (PDict []))
  | get_eml_parameter_value parameter_name =>
      ("/get_eml_parameter_value", Some (PDict [ ("parameter_name", parameter_name) ]))
  | set_eml_parameter_value parameter_name value =>
      ("/set_eml_parameter_value",
       Some (PDict [ ("parameter_name", parameter_name); ("value", value) ]))
  | suggest_eml_connections => ("/suggest_eml_connections", Some (PDict []))
  end.

(** Running the tool: its body is the call of [call_bridge_api]. *)
Definition run_tool (R : Requests) (BRIDGE_URL : string) (t : ToolCall)
  : list Call * result PyVal :=
  call_bridge_api R BRIDGE_URL (fst (bridge_arguments t)) (snd (bridge_arguments t)).

End Tools.
Import Tools.

(** ** Dict objects and aliasing *)

Module Objects.

(** Dict objects live in a store and are known by reference; the module
    global [_bridge_handlers] is one of them. *)
Definition ref : Type := positive.

Record Store : Type := mkStore {
  objects : gmap ref (gmap string PyFunc);
  bridge_handlers_ref : ref
}.

(** [_bridge_handlers.copy()]: a new dict object with the same items. *)
Definition dict_copy (r : ref) (st : Store) : Store * ref :=
  let new := fresh (dom (objects st)) in
  (mkStore (<[new := default ∅ (objects st !! r)]> (objects st))
           (bridge_handlers_ref st),
   new).

(** [get_bridge_handlers()] on the store. *)
Definition get_bridge_handlers (st : Store) : Store * ref :=
  dict_copy (bridge_handlers_ref st) st.

(** What a caller can do to a dict it holds. *)
Inductive DictOp : Type :=
| SetItem (k : string) (f : PyFunc)
| DelItem (k : string)
| Clear.

Definition apply_op (op : DictOp) (d : gmap string PyFunc) : gmap string PyFunc :=
  match op with
  | SetItem k f => <[k := f]> d
  | DelItem k => delete k d
  | Clear => ∅
  end.

(** The operation performed on the object behind reference [r]. *)
Definition mutate (r : ref) (op : DictOp) (st : Store) : Store :=
  mkStore (alter (apply_op op) r (objects st)) (bridge_handlers_ref st).

Definition mutate_all (r : ref) (ops : list DictOp) (st : Store) : Store :=
  fold_left (fun st op => mutate r op st) ops st.

(** The items of the registry, and of any object, in a store. *)
Definition items (r : ref) (st : Store) : option (gmap string PyFunc) :=
  objects st !! r.

Definition registry_items (st : Store) : option (gmap string PyFunc) :=
  items (bridge_handlers_ref st) st.

End Objects.

(** ** Concrete inputs used by the examples below *)

Module Examples.

Definition host : Host := mkHost "C:\aag25_mcp\Tools" "3.9.10".

Definition ValueError_ (msg : string) : PyExc :=
  mkExc "ValueError" ("builtins.ValueError" :: base_mro) msg
        "Traceback (most recent call last):" [].

(** A handler whose host call fails. *)
Definition failing_handler : PyFunc :=
  mkFunc "handle_draw_line" (fun _ => Raise (ValueError_ "could not convert string to float")).

(** A handler interrupted from the keyboard. *)
Definition interrupted_handler : PyFunc :=
  mkFunc "handle_draw_line" (fun _ => Raise KeyboardInterrupt_).

(** A handler that returns a string instead of a dict. *)
Definition string_handler : PyFunc :=
  mkFunc "handle_list_gh_files" (fun _ => Return (PStr "done")).

(** A handler that returns a dict without the key 'success'. *)
Definition bare_dict_handler : PyFunc :=
  mkFunc "handle_list_gh_files" (fun _ => Return (PDict [("files", PList [])])).

(** A handler that puts a host object into its result. *)
Definition guid_handler : PyFunc :=
  mkFunc "handle_draw_line"
         (fun _ => Return (PDict [("success", PBool true); ("line_id", PObj "Guid")])).

(** A Tools directory with two tool modules, a cache directory and the
    registry itself. *)
Definition rhino_tools_py : list Stmt :=
  [ SRhinoTool (Some "draw_line_rhino") (Some "Draw a line in Rhino 3D space")
               "draw_line_rhino";
    SBridgeHandler "/draw_line" failing_handler ].

Definition gh_tools_py : list Stmt :=
  [ SGhTool (Some "list_gh_files") None "list_gh_files";
    SBridgeHandler "/list_gh_files" bare_dict_handler ].

Definition tools_env : ImportEnv :=
  mkEnv [ "__init__.py"; "gh_tools.py"; "__pycache__"; "rhino_tools.py";
          "tool_registry.py" ]
        (fun cwd name =>
           if String.eqb name "gh_tools" then Some gh_tools_py
           else if String.eqb name "rhino_tools" then Some rhino_tools_py
           else None).

(** The same directory when gh_tools.py exits the interpreter at import. *)
Definition exiting_env : ImportEnv :=
  mkEnv [ "gh_tools.py"; "rhino_tools.py" ]
        (fun cwd name =>
           if String.eqb name "gh_tools" then Some [SRaise (SystemExit_ "1")]
           else if String.eqb name "rhino_tools" then Some rhino_tools_py
           else None).

Definition fresh_world : World :=
  mkWorld empty_registry ∅ "C:\aag25_mcp" [] [].

(** The library calls on the example requests, which carry no
    Content-Length header, no body and no query string: the path is its
    own path component and nothing is parsed. *)
Definition plain_libs : Libs :=
  mkLibs (fun p => p)
         (fun h => Raise (ValueError_ ("invalid literal for int() with base 10: '" ++ h ++ "'")))
         (fun b => Raise (mkExc "JSONDecodeError"
                            ("json.decoder.JSONDecodeError" :: "builtins.ValueError" :: base_mro)
                            "Expecting value: line 1 column 1 (char 0)" "" [])).

(** A running server whose handlers came from a discovery. *)
Definition server_with (handlers : gmap string PyFunc) : Server :=
  mkServer true true true true handlers fresh_world.

Definition draw_line_server : Server :=
  server_with (_bridge_handlers (bridge_handler host "/draw_line" guid_handler empty_registry)).

Definition failing_server : Server :=
  server_with (_bridge_handlers (bridge_handler host "/draw_line" failing_handler empty_registry)).

Definition list_files_server : Server :=
  server_with (_bridge_handlers
                 (bridge_handler host "/list_gh_files" bare_dict_handler empty_registry)).

Definition objects_server : Server :=
  server_with {[ "/get_objects" :=
                   wrapper host "/get_objects"
                     (mkFunc "handle_get_objects"
                        (fun _ => Return (PDict [("success", PBool true);
                                                 ("objects", PList [PObj "Point3d"])]))) ]}.

Definition post (p : string) : Request := mkRequest p None "".

(** The network when the bridge server is not running, and when it
    answers a parameter listing. *)
Definition requests_ConnectionError : PyExc :=
  mkExc "ConnectionError"
        ("requests.exceptions.ConnectionError" :: "requests.exceptions.RequestException"
         :: "builtins.OSError" :: base_mro)
        "Connection refused" "" [].

Definition offline : Requests :=
  mkRequests (fun _ => Raise requests_ConnectionError)
             (fun _ _ => Raise requests_ConnectionError).

Definition online : Requests :=
  mkRequests (fun _ => Return (mkResponse 404 "Endpoint not found" None
                                 (Return (PDict [("success", PBool false)]))))
             (fun _ _ => Return (mkResponse 200 "ok" (Some "application/json")
                                   (Return (PDict [("success", PBool true);
                                                   ("parameters", PList [])])))).

(** A store that holds the registry dict with one handler. *)
Definition one_handler_store : Objects.Store :=
  Objects.mkStore {[ 1%positive := {[ "/draw_line" := wrapper host "/draw_line" failing_handler ]} ]}
                  1%positive.

End Examples.
Import Examples.

(** ** The rest of tool_registry.py, bridge_client.py, main.py and
    rhino_tools.py *)

Module Callers.

(** [ToolDefinition.to_dict()]: the three items MCP registration reads. *)
Record ToolDict : Type := mkToolDict {
  td_name : string;
  td_description : string;
  td_function : string
}.

Definition to_dict (t : ToolDefinition) : ToolDict :=
  mkToolDict (name t) (description t) (function t).

Definition get_rhino_tools (w : World) : list ToolDict :=
  List.map to_dict (_rhino_tools (registry w)).

Definition get_gh_tools (w : World) : list ToolDict :=
  List.map to_dict (_gh_tools (registry w)).

Definition get_custom_tools (w : World) : list ToolDict :=
  List.map to_dict (_custom_tools (registry w)).

(** Every handler of the map is the wrapper [bridge_handler] builds for
    the endpoint it is stored under. *)
Definition wrappers_only (H : Host) (handlers : gmap string PyFunc) : Prop :=
  forall ep h, handlers !! ep = Some h -> exists f, h = wrapper H ep f.

(** main.py, [register_tools]: the calls [mcp.tool(name=..., description=...)
    (function)] it makes, in order, and the three counts it returns. *)
Definition register_tools (H : Host) (E : ImportEnv) (w : World)
  : World * list ToolDict * result (nat * nat * nat) :=
  match discover_tools H E w with
  | (w', Raise e) => (w', [], Raise e)
  | (w', Return _) =>
      let custom_tools := get_custom_tools w' in
      let rhino_tools := get_rhino_tools w' in
      let gh_tools := get_gh_tools w' in
      (w', (custom_tools ++ rhino_tools ++ gh_tools)%list,
       Return (List.length custom_tools, List.length rhino_tools, List.length gh_tools))
  end.

(** bridge_client.py, [get_bridge_status] and [get_bridge_info]. *)
Definition get_bridge_status (R : Requests) (BRIDGE_URL : string)
  : list Call * result PyVal :=
  call_bridge_api R BRIDGE_URL "/status" None.

Definition get_bridge_info (R : Requests) (BRIDGE_URL : string)
  : list Call * result PyVal :=
  call_bridge_api R BRIDGE_URL "/info" None.

Definition AttributeError_ (v : PyVal) (attr : string) : PyExc :=
  mkExc "AttributeError" ("builtins.AttributeError" :: base_mro)
        ("'" ++ type_name_of v ++ "' object has no attribute '" ++ attr ++ "'") "" [].

(** [v.get(key)] on a value that came out of [response.json()]: only a
    dict has the method. *)
Definition py_get (key : string) (v : PyVal) : result (option PyVal) :=
  match v with
  | PDict d => Return (dict_get key d)
  | _ => Raise (AttributeError_ v "get")
  end.

(** [x == "running"] for an optional looked-up value. *)
Definition is_running_str (x : option PyVal) : bool :=
  match x with
  | Some (PStr s) => String.eqb s "running"
  | _ => false
  end.

(** main.py, [check_bridge_connection]; logging is not modelled. *)
Definition check_bridge_connection (R : Requests) (BRIDGE_URL : string)
  : list Call * result bool :=
  let '(calls, status) := get_bridge_status R BRIDGE_URL in
  match status with
  | Raise e => if isinstance e Exception then (calls, Return false) else (calls, Raise e)
  | Return st =>
      match py_get "status" st with
      | Return x => (calls, Return (is_running_str x))
      | Raise e => if isinstance e Exception then (calls, Return false) else (calls, Raise e)
      end
  end.

(** The truth value of a Python value; [PFloat] carries [repr(x)], and an
    object of another class is true unless its class says otherwise. *)
Definition py_truthy (v : PyVal) : bool :=
  match v with
  | PNone => false
  | PBool b => b
  | PInt z => negb (z =? 0)
  | PFloat r => negb (String.eqb r "0.0" || String.eqb r "-0.0")
  | PStr s => negb (String.eqb s "")
  | PList l => match l with [] => false | _ => true end
  | PDict d => match d with [] => false | _ => true end
  | PObj _ => true
  end.

(** [key in keys] on a list of strings. *)
Definition str_in (key : string) (keys : list string) : bool :=
  existsb (String.eqb key) keys.

Definition essential_keys : list string :=
  [ "success"; "error"; "message"; "warning";
    "line_id"; "point_count"; "truss_type"; "member_count";
    "version"; "document_name"; "unit_system" ].

(** rhino_tools.py, [filter_debug_response], on the items of the response
    dict. *)
Definition filter_debug_response (DEBUG_MODE : bool)
    (response : list (string * PyVal)) : list (string * PyVal) :=
  if DEBUG_MODE then response
  else
    let filtered :=
      fold_left (fun acc key =>
                   match dict_get key response with
                   | Some v => dict_set key v acc
                   | None => acc
                   end) essential_keys [] in
    let filtered :=
      if negb (py_truthy (default (PBool true) (dict_get "success" response)))
      then match dict_get "traceback" response with
           | Some v => dict_set "traceback" v filtered
           | None => filtered
           end
      else filtered in
    fold_left (fun acc kv =>
                 if negb (str_in (fst kv) essential_keys) &&
                    negb (str_in (fst kv) ["traceback"])
                 then dict_set (fst kv) (snd kv) acc
                 else acc) response filtered.

(** The endpoints for which rhino_tools.py and gh_tools.py decorate a
    handler with [@bridge_handler], in file order. *)
Definition handler_endpoints : list string :=
  [ "/draw_line";
    "/get_active_gh_files"; "/list_sliders"; "/generate_building_massing";
    "/list_gh_files"; "/set_slider"; "/list_eml_parameters";
    "/get_eml_parameter_value"; "/set_eml_parameter_value";
    "/suggest_eml_connections" ].

End Callers.
Import Callers.

Module MoreExamples.

Definition running : Requests :=
  mkRequests (fun _ => Return (mkResponse 200 "ok" (Some "application/json")
                                 (Return (PDict [("status", PStr "running")]))))
             (fun _ _ => Return (mkResponse 200 "ok" (Some "application/json")
                                   (Return (PDict [("success", PBool true)])))).

(** A [ConnectTimeout], which is both a connection error and a timeout. *)
Definition requests_ConnectTimeout : PyExc :=
  mkExc "ConnectTimeout"
        [ "requests.exceptions.ConnectTimeout"; "requests.exceptions.ConnectionError";
          "requests.exceptions.Timeout"; "requests.exceptions.RequestException";
          "builtins.OSError"; "builtins.Exception"; "builtins.BaseException";
          "builtins.object" ]
        "timed out" "" [].

Definition timing_out : Requests :=
  mkRequests (fun _ => Raise requests_ConnectTimeout)
             (fun _ _ => Raise requests_ConnectTimeout).

Definition failing_with (e : PyExc) : Requests :=
  mkRequests (fun _ => Raise e) (fun _ _ => Raise e).

Definition bad_json : PyExc :=
  mkExc "JSONDecodeError"
        ("json.decoder.JSONDecodeError" :: "builtins.ValueError" :: base_mro)
        "Expecting value: line 1 column 1 (char 0)" "" [].

(** Library calls on a request with a Content-Length of 5 and a body that
    is not JSON. *)
Definition five_libs : Libs :=
  mkLibs (fun p => p) (fun _ => Return 5) (fun _ => Raise bad_json).

(** Library calls on a request whose Content-Length is not a number. *)
Definition nan_libs : Libs :=
  mkLibs (fun p => p)
         (fun h => Raise (ValueError_ "invalid literal for int() with base 10"))
         (fun _ => Raise bad_json).

(** A handler stored in the map without the decorator's wrapper. *)
Definition raw_server : Server :=
  server_with {[ "/draw_line" := failing_handler ]}.

Definition raw_interrupted_server : Server :=
  server_with {[ "/draw_line" := interrupted_handler ]}.

Definition cold_server (available : bool) : Server :=
  mkServer available true true false ∅ fresh_world.

(** The exception [response.json()] of a recent [requests] raises. *)
Definition requests_JSONDecodeError : PyExc :=
  mkExc "JSONDecodeError"
        [ "requests.exceptions.JSONDecodeError"; "requests.exceptions.InvalidJSONError";
          "requests.exceptions.RequestException"; "builtins.OSError";
          "json.decoder.JSONDecodeError"; "builtins.ValueError"; "builtins.Exception";
          "builtins.BaseException"; "builtins.object" ]
        "Expecting value: line 1 column 1 (char 0)" ""
        [("lineno", PInt 1); ("colno", PInt 1)].

Definition html_page : Response :=
  mkResponse 200 "<html>proxy</html>" (Some "text/html") (Raise requests_JSONDecodeError).

Definition behind_proxy : Requests :=
  mkRequests (fun _ => Return html_page) (fun _ _ => Return html_page).

Definition not_found_page : Response :=
  mkResponse 404 "Endpoint not found" None (Return (PDict [("success", PBool false)])).

(** A successful and a failed handler result, as rhino_tools.py builds
    them. *)
Definition line_result : list (string * PyVal) :=
  [ ("success", PBool true); ("line_id", PStr "3f2a"); ("start_point", PList []);
    ("traceback", PStr "none"); ("length", PFloat "5.0") ].

Definition line_failure : list (string * PyVal) :=
  [ ("success", PBool false); ("error", PStr "Failed to create line in Rhino");
    ("line_id", PNone); ("traceback", PStr "Traceback (most recent call last):") ].

End MoreExamples.
Import MoreExamples.

(** ** Properties of [bridge_handler] *)

Section BridgeHandler.

Variable H : Host.

Lemma exception_response_fields endpoint func data e :
  let d := match exception_response H endpoint func data e with
           | PDict d => d | _ => [] end in
  exception_response H endpoint func data e = PDict d /\
  dict_get "success" d = Some (PBool false) /\
  dict_get "error" d = Some (PStr (exc_name e ++ ": " ++ exc_msg e)) /\
  dict_get "error_type" d = Some (PStr (exc_name e)) /\
  dict_get "endpoint" d = Some (PStr endpoint).
Proof. repeat split; reflexivity. Qed.

Lemma wrapper_registered endpoint func r :
  _bridge_handlers (bridge_handler H endpoint func r) !! endpoint
  = Some (wrapper H endpoint func).
Proof. unfold bridge_handler; simpl. apply lookup_insert_eq. Qed.

(** C1 (as amended): for every handler registered with
    [@bridge_handler(endpoint)] and every request payload, if the
    underlying function raises an exception that is an instance of
    [Exception], the registered wrapper returns normally with a dict that
    holds "success": false, an "error" string, the exception's class name
    as "error_type" and the registering "endpoint". *)
Theorem bridge_handler_catches_Exception endpoint func r data e :
  fn_call func data = Raise e ->
  isinstance e Exception = true ->
  exists w d msg,
    _bridge_handlers (bridge_handler H endpoint func r) !! endpoint = Some w /\
    fn_call w data = Return (PDict d) /\
    dict_get "success" d = Some (PBool false) /\
    dict_get "error" d = Some (PStr msg) /\
    dict_get "error_type" d = Some (PStr (exc_name e)) /\
    dict_get "endpoint" d = Some (PStr endpoint).
Proof.
  intros Hraise Hexc.
  destruct (exception_response_fields endpoint func data e) as (Hd & Hs & Her & Hty & Hep).
  eexists (wrapper H endpoint func), _, _.
  split; [apply wrapper_registered|].
  split; [|repeat split; eassumption].
  simpl. unfold wrapper_call. rewrite Hraise, Hexc. reflexivity.
Qed.

(** C5: every value a wrapped handler returns is a dict with the key
    'success'; a non-dict result of the underlying function is replaced by
    a dict with "success": false and "error_type": "InvalidReturnType";
    a dict without 'success' comes back with 'success' set to true and
    every other key and value as it was. *)
Theorem wrapper_result_has_success endpoint func data :
  (forall v, fn_call (wrapper H endpoint func) data = Return v ->
     exists d, v = PDict d /\ dict_has "success" d = true) /\
  (forall res, fn_call func data = Return res -> is_dict res = false ->
     exists d, fn_call (wrapper H endpoint func) data = Return (PDict d) /\
       dict_get "success" d = Some (PBool false) /\
       dict_get "error_type" d = Some (PStr "InvalidReturnType")) /\
  (forall d, fn_call func data = Return (PDict d) -> dict_has "success" d = false ->
     exists d', fn_call (wrapper H endpoint func) data = Return (PDict d') /\
       dict_get "success" d' = Some (PBool true) /\
       List.map fst d' = (List.map fst d ++ ["success"])%list /\
       forall k, k <> "success" -> dict_get k d' = dict_get k d).
Proof.
  assert (Hset : forall d, dict_has "success" d = false ->
            dict_get "success" (dict_set "success" (PBool true) d) = Some (PBool true) /\
            List.map fst (dict_set "success" (PBool true) d)
              = (List.map fst d ++ ["success"])%list /\
            forall k, k <> "success" ->
              dict_get k (dict_set "success" (PBool true) d) = dict_get k d).
  { unfold dict_has. induction d as [|[k' v'] d IH]; intros Hno.
    - repeat split. intros k Hk. simpl.
      destruct (String.eqb_spec k "success"); [contradiction|reflexivity].
    - cbn [dict_get dict_set] in *.
      destruct (String.eqb_spec "success" k') as [->|Hne]; [discriminate|].
      destruct (IH Hno) as (IH1 & IH2 & IH3).
      cbn [dict_get List.map fst app].
      destruct (String.eqb_spec "success" k'); [contradiction|].
      repeat split; [exact IH1 | f_equal; exact IH2 |].
      intros k Hk. destruct (String.eqb k k'); [reflexivity|]. apply IH3, Hk. }
  simpl. unfold wrapper_call. repeat split.
  - intros v. destruct (fn_call func data) as [res|e].
    + destruct res; try (intros [= <-]; eexists; split; [reflexivity|reflexivity]).
      destruct (dict_has "success" d) eqn:Hhas; intros [= <-]; eexists;
        (split; [reflexivity|]); [exact Hhas|].
      unfold dict_has. destruct (Hset d Hhas) as (-> & _). reflexivity.
    + destruct (isinstance e Exception); [|discriminate].
      intros [= <-]. eexists; split; reflexivity.
  - intros res -> Hnd. destruct res; try discriminate;
      eexists; repeat split; reflexivity.
  - intros d -> Hno. rewrite Hno. eexists. split; [reflexivity|]. apply Hset, Hno.
Qed.

End BridgeHandler.

Lemma bridge_handler_catches_Exception_witness :
  exists w d msg,
    _bridge_handlers (bridge_handler host "/draw_line" failing_handler empty_registry)
      !! "/draw_line" = Some w /\
    fn_call w (PDict []) = Return (PDict d) /\
    dict_get "success" d = Some (PBool false) /\
    dict_get "error" d = Some (PStr msg) /\
    dict_get "error_type" d = Some (PStr "ValueError") /\
    dict_get "endpoint" d = Some (PStr "/draw_line").
Proof.
  apply (bridge_handler_catches_Exception host "/draw_line" failing_handler
           empty_registry (PDict []) (ValueError_ "could not convert string to float"));
    reflexivity.
Defined.

(** The claim of C1 as written fails on an exception that is not an
    instance of [Exception]: the handler raises [KeyboardInterrupt] and so
    does the registered wrapper. *)
Lemma bridge_handler_propagates_KeyboardInterrupt :
  fn_call interrupted_handler (PDict []) = Raise KeyboardInterrupt_ /\
  exists w,
    _bridge_handlers (bridge_handler host "/draw_line" interrupted_handler empty_registry)
      !! "/draw_line" = Some w /\
    fn_call w (PDict []) = Raise KeyboardInterrupt_.
Proof.
  split; [reflexivity|]. eexists. split; [apply wrapper_registered|reflexivity].
Qed.

Lemma wrapper_result_has_success_witness :
  exists d', fn_call (wrapper host "/list_gh_files" bare_dict_handler) (PDict [])
             = Return (PDict d') /\
    dict_get "success" d' = Some (PBool true) /\
    List.map fst d' = ["files"; "success"] /\
    forall k, k <> "success" -> dict_get k d' = dict_get k [("files", PList [])].
Proof.
  exact (proj2 (proj2 (wrapper_result_has_success host "/list_gh_files"
                         bare_dict_handler (PDict [])))
               [("files", PList [])] eq_refl eq_refl).
Defined.

(** ** Properties of [discover_tools] *)

Section Discovery.

Variable H : Host.
Variable E : ImportEnv.

Lemma extends_refl w : extends H w w.
Proof. exists []. split; [symmetry; apply app_nil_r|reflexivity]. Qed.

Lemma extends_trans w1 w2 w3 :
  extends H w1 w2 -> extends H w2 w3 -> extends H w1 w3.
Proof.
  intros (n1 & Hd1 & Hr1) (n2 & Hd2 & Hr2). exists (n1 ++ n2)%list. split.
  - rewrite Hd2, Hd1. symmetry. apply app_assoc.
  - rewrite Hr2, Hr1. unfold replay. symmetry. apply fold_left_app.
Qed.

Lemma exec_body_spec body w :
  exec_body H body w =
  (mkWorld (replay H (executed body) (registry w)) (sys_modules w) (cwd w)
           (console w) (decorated w ++ executed body),
   match first_raise body with Some e => Raise e | None => Return tt end).
Proof.
  revert w. induction body as [|s rest IH]; intros w.
  - simpl. rewrite app_nil_r. destruct w; reflexivity.
  - destruct s; simpl;
      try (rewrite IH; simpl; rewrite <- app_assoc; reflexivity).
    rewrite app_nil_r. destruct w; reflexivity.
Qed.

Lemma exec_body_extends body w : extends H w (fst (exec_body H body w)).
Proof. rewrite exec_body_spec. exists (executed body). split; reflexivity. Qed.

Lemma exec_body_console body w : console (fst (exec_body H body w)) = console w.
Proof. rewrite exec_body_spec. reflexivity. Qed.

Lemma exec_body_cwd body w : cwd (fst (exec_body H body w)) = cwd w.
Proof. rewrite exec_body_spec. reflexivity. Qed.

Lemma import_module_post name w : import_post H E w (import_module H E name w).
Proof.
  unfold import_post, import_module.
  destruct (bool_decide (name ∈ sys_modules w)).
  { simpl. repeat split; [apply extends_refl|discriminate]. }
  destruct (find_module E (cwd w) name) as [body|] eqn:Hfind.
  - pose proof (exec_body_spec body (set_sys_modules ({[name]} ∪ sys_modules w) w)) as Hs.
    destruct (exec_body H body _) as [w' r]. injection Hs as -> ->.
    destruct (first_raise body) as [e|] eqn:Hfr; simpl;
      (repeat split; [exists (executed body); split; reflexivity|]).
    + intros e' [= <-] Hok. eapply Hok; eassumption.
    + discriminate.
  - simpl. repeat split; [apply extends_refl|]. intros e [= <-] _. reflexivity.
Qed.

Lemma reload_post name w : import_post H E w (reload H E name w).
Proof.
  unfold import_post, reload.
  destruct (find_module E (cwd w) name) as [body|] eqn:Hfind.
  - rewrite exec_body_spec. simpl.
    repeat split; [exists (executed body); split; reflexivity|].
    intros e He Hok. destruct (first_raise body) eqn:Hfr; [|discriminate].
    injection He as ->. eapply Hok; eassumption.
  - simpl. repeat split; [apply extends_refl|]. intros e [= <-] _. reflexivity.
Qed.

(** One import attempt prints exactly one line when it succeeds and
    nothing when it raises. *)
Lemma import_attempt_post import_name module_name pre w :
  let out := import_attempt H E import_name module_name pre w in
  extends H w (fst out) /\ cwd (fst out) = cwd w /\
  match snd out with
  | Return _ => exists m, console (fst out) = (console w ++ [m])%list /\
                          reports module_name m
  | Raise e => console (fst out) = console w /\
               (raises_only_Exception E -> isinstance e Exception = true)
  end.
Proof.
  unfold import_attempt.
  destruct (import_module_post import_name w) as (He1 & Hc1 & Hd1 & Hx1).
  destruct (import_module H E import_name w) as [w1 [[]|e1]]; simpl in *.
  2:{ repeat split; auto. }
  destruct (bool_decide (import_name ∈ sys_modules w)).
  2:{ simpl. repeat split; auto. eexists. rewrite Hc1. split; reflexivity. }
  destruct (reload_post import_name w1) as (He2 & Hc2 & Hd2 & Hx2).
  destruct (reload H E import_name w1) as [w2 [[]|e2]]; simpl in *.
  - repeat split; [eapply extends_trans; eassumption|congruence|].
    eexists. rewrite Hc2, Hc1. split; reflexivity.
  - repeat split; [eapply extends_trans; eassumption|congruence|congruence|auto].
Qed.

Lemma chdir_extends d w w' : extends H (chdir d w) w' -> extends H w w'.
Proof. exact (fun x => x). Qed.

Lemma discover_one_extends module_name w :
  extends H w (fst (discover_one H E module_name w)).
Proof.
  unfold discover_one.
  pose proof (import_attempt_post module_name module_name false (chdir (tools_dir H) w))
    as (He1 & _ & _).
  destruct (import_attempt H E module_name module_name false _) as [w1 [[]|e1]];
    simpl in *; [exact He1|].
  destruct (isinstance e1 ImportError).
  - pose proof (import_attempt_post ("Tools." ++ module_name) module_name true
                  (chdir (cwd w) w1)) as (He2 & _ & _).
    destruct (import_attempt H E ("Tools." ++ module_name) module_name true _)
      as [w2 [[]|e2]]; simpl in *.
    + eapply extends_trans; [exact He1|exact He2].
    + destruct (isinstance e2 Exception); simpl;
        (eapply extends_trans; [exact He1|exact He2]).
  - destruct (isinstance e1 Exception); exact He1.
Qed.

(** Where imports raise only [Exception]s, the loop body always returns,
    leaves the working directory as it was and prints one line about the
    module. *)
Lemma discover_one_returns module_name w :
  raises_only_Exception E ->
  exists w' m, discover_one H E module_name w = (w', Return tt) /\
               console w' = (console w ++ [m])%list /\ reports module_name m /\
               cwd w' = cwd w.
Proof.
  intros Hok. unfold discover_one.
  pose proof (import_attempt_post module_name module_name false (chdir (tools_dir H) w))
    as (_ & _ & Hm1).
  destruct (import_attempt H E module_name module_name false _) as [w1 [[]|e1]];
    simpl in *.
  { destruct Hm1 as (m & Hc & Hr). exists (chdir (cwd w) w1), m. auto. }
  destruct Hm1 as (Hc1 & Hx1).
  destruct (isinstance e1 ImportError).
  - pose proof (import_attempt_post ("Tools." ++ module_name) module_name true
                  (chdir (cwd w) w1)) as (_ & _ & Hm2).
    destruct (import_attempt H E ("Tools." ++ module_name) module_name true _)
      as [w2 [[]|e2]]; simpl in *.
    + destruct Hm2 as (m & Hc & Hr). exists (chdir (cwd w) w2), m.
      repeat split; [|exact Hr]. simpl. rewrite Hc. simpl. congruence.
    + destruct Hm2 as (Hc2 & Hx2). rewrite (Hx2 Hok).
      eexists _, _. split; [reflexivity|]. simpl. rewrite Hc2. simpl. rewrite Hc1.
      repeat split. auto.
  - rewrite (Hx1 Hok). eexists _, _. split; [reflexivity|]. simpl. rewrite Hc1.
    repeat split. auto.
Qed.

Lemma discover_loop_extends files w :
  extends H w (fst (discover_loop H E files w)).
Proof.
  revert w. induction files as [|f rest IH]; intros w; simpl.
  - apply extends_refl.
  - pose proof (discover_one_extends (module_name_of f) w) as He.
    destruct (discover_one H E (module_name_of f) w) as [w' [[]|e]]; simpl in *.
    + eapply extends_trans; [exact He|apply IH].
    + exact He.
Qed.

Lemma discover_loop_returns files w :
  raises_only_Exception E ->
  exists w' msgs, discover_loop H E files w = (w', Return tt) /\
                  console w' = (console w ++ msgs)%list /\
                  Forall2 (fun f m => reports (module_name_of f) m) files msgs.
Proof.
  intros Hok. revert w. induction files as [|f rest IH]; intros w; simpl.
  - exists w, []. rewrite app_nil_r. repeat split. constructor.
  - destruct (discover_one_returns (module_name_of f) w Hok) as (w1 & m & -> & Hc & Hr & _).
    destruct (IH w1) as (w' & msgs & -> & Hc' & Hall).
    exists w', (m :: msgs). repeat split.
    + rewrite Hc', Hc, <- app_assoc. reflexivity.
    + constructor; assumption.
Qed.

End Discovery.

Section DiscoverTools.

Variable H : Host.
Variable E : ImportEnv.

Lemma executed_no_raise body : first_raise body = None -> executed body = body.
Proof.
  induction body as [|s rest IH]; [reflexivity|].
  destruct s; simpl; try discriminate; intros Hn; f_equal; auto.
Qed.

Lemma discover_tools_from_empty w :
  exists new,
    decorated (fst (discover_tools H E w)) = (decorated w ++ new)%list /\
    registry (fst (discover_tools H E w)) = replay H new empty_registry.
Proof.
  unfold discover_tools.
  pose proof (discover_loop_extends H E (discovered_files E)
                (print (MFound (discovered_files E))
                   (print (MScanning (tools_dir H)) (set_registry empty_registry w))))
    as (new & Hd & Hr).
  destruct (discover_loop H E _ _) as [w3 [[]|e]]; exists new; split; assumption.
Qed.

(** C2: a call of [discover_tools] starts from four empty registries, so
    after it they hold exactly what the decorator applications of that
    call put there; what they held before has no influence, and a second
    call does not add to the first. *)
Theorem discover_tools_repopulates w :
  let w1 := fst (discover_tools H E w) in
  let w2 := fst (discover_tools H E w1) in
  (exists new, decorated w1 = (decorated w ++ new)%list /\
               registry w1 = replay H new empty_registry) /\
  (exists new, decorated w2 = (decorated w1 ++ new)%list /\
               registry w2 = replay H new empty_registry) /\
  (forall r0, discover_tools H E (set_registry r0 w) = discover_tools H E w).
Proof.
  repeat split; try apply discover_tools_from_empty.
Qed.

Lemma discovered_files_spec f :
  In f (discovered_files E) <->
  In f (listdir E) /\ endswith ".py" f = true /\
  f <> "__init__.py" /\ f <> "tool_registry.py".
Proof.
  unfold discovered_files, is_tool_file. rewrite filter_In.
  rewrite !andb_true_iff, !negb_true_iff.
  destruct (String.eqb_spec f "__init__.py"), (String.eqb_spec f "tool_registry.py");
    intuition congruence.
Qed.

Lemma discover_one_reloads module_name body w :
  module_name ∈ sys_modules w ->
  find_module E (tools_dir H) module_name = Some body ->
  first_raise body = None ->
  discover_one H E module_name w =
  (mkWorld (replay H body (registry w)) (sys_modules w) (cwd w)
           (console w ++ [MReloaded module_name false]) (decorated w ++ body),
   Return tt).
Proof.
  intros Hin Hfind Hnr. unfold discover_one, import_attempt, import_module, reload.
  simpl. rewrite (bool_decide_eq_true_2 _ Hin). simpl. rewrite Hfind.
  rewrite exec_body_spec, Hnr, (executed_no_raise _ Hnr). reflexivity.
Qed.

Lemma discover_one_warns module_name body e w :
  find_module E (tools_dir H) module_name = Some body ->
  first_raise body = Some e ->
  isinstance e ImportError = false ->
  isinstance e Exception = true ->
  snd (discover_one H E module_name w) = Return tt /\
  console (fst (discover_one H E module_name w))
  = (console w ++ [MWarning module_name e])%list.
Proof.
  intros Hfind Hfr Hni Hexc. unfold discover_one, import_attempt, import_module, reload.
  simpl. destruct (bool_decide (module_name ∈ sys_modules w)); simpl; rewrite Hfind;
    rewrite exec_body_spec, Hfr; simpl; rewrite Hni, Hexc; split; reflexivity.
Qed.

(** C7 (as amended): [discover_tools] goes through every entry of its
    directory whose name ends in '.py' except '__init__.py' and
    'tool_registry.py', reloading a module that was already imported;
    where importing a module raises an [Exception], the module is skipped
    with a warning and the discovery goes on with the remaining modules
    and returns the dict of registries with the keys 'rhino',
    'grasshopper' and 'custom'. *)
Theorem discover_tools_imports_all w :
  raises_only_Exception E ->
  (forall f, In f (discovered_files E) <->
     In f (listdir E) /\ endswith ".py" f = true /\
     f <> "__init__.py" /\ f <> "tool_registry.py") /\
  (exists w' msgs,
     discover_tools H E w = (w', Return (registries_dict (registry w'))) /\
     List.map fst (registries_dict (registry w')) = ["rhino"; "grasshopper"; "custom"] /\
     Forall2 (fun f m => reports (module_name_of f) m) (discovered_files E) msgs /\
     exists summary,
       console w' = (console w ++ [MScanning (tools_dir H); MFound (discovered_files E)]
                       ++ msgs ++ [summary])%list) /\
  (forall module_name body w0,
     module_name ∈ sys_modules w0 ->
     find_module E (tools_dir H) module_name = Some body ->
     first_raise body = None ->
     discover_one H E module_name w0 =
     (mkWorld (replay H body (registry w0)) (sys_modules w0) (cwd w0)
              (console w0 ++ [MReloaded module_name false]) (decorated w0 ++ body),
      Return tt)) /\
  (forall module_name body e w0,
     find_module E (tools_dir H) module_name = Some body ->
     first_raise body = Some e ->
     isinstance e ImportError = false ->
     snd (discover_one H E module_name w0) = Return tt /\
     console (fst (discover_one H E module_name w0))
     = (console w0 ++ [MWarning module_name e])%list).
Proof.
  intros Hok. split; [apply discovered_files_spec|]. split; [|split].
  - unfold discover_tools.
    destruct (discover_loop_returns H E (discovered_files E)
                (print (MFound (discovered_files E))
                   (print (MScanning (tools_dir H)) (set_registry empty_registry w))) Hok)
      as (w3 & msgs & -> & Hc & Hall).
    eexists (print _ w3), msgs. split; [reflexivity|]. split; [reflexivity|].
    split; [exact Hall|].
    eexists. simpl. rewrite Hc. simpl. rewrite <- !app_assoc. reflexivity.
  - apply discover_one_reloads.
  - intros module_name body e w0 Hfind Hfr Hni.
    eapply discover_one_warns; eauto.
Qed.

End DiscoverTools.

Lemma tools_env_raises_only_Exception : raises_only_Exception tools_env.
Proof.
  intros cwd name body e. simpl.
  destruct (String.eqb name "gh_tools"); [intros [= <-]; discriminate|].
  destruct (String.eqb name "rhino_tools"); [intros [= <-]; discriminate|discriminate].
Qed.

Lemma discover_tools_imports_all_witness :
  exists w' msgs,
    discover_tools host tools_env fresh_world = (w', Return (registries_dict (registry w'))) /\
    List.map fst (registries_dict (registry w')) = ["rhino"; "grasshopper"; "custom"] /\
    Forall2 (fun f m => reports (module_name_of f) m) (discovered_files tools_env) msgs /\
    exists summary,
      console w' = (console fresh_world ++
                    [MScanning (tools_dir host); MFound (discovered_files tools_env)]
                    ++ msgs ++ [summary])%list.
Proof.
  exact (proj1 (proj2 (discover_tools_imports_all host tools_env fresh_world
                         tools_env_raises_only_Exception))).
Defined.

(** The claim of C7 as written fails when a module raises something that
    is not an [Exception]: gh_tools.py exits the interpreter at import,
    [discover_tools] raises [SystemExit] instead of returning the dict,
    and rhino_tools.py is never imported. *)
Lemma discover_tools_propagates_SystemExit :
  discovered_files exiting_env = ["gh_tools.py"; "rhino_tools.py"] /\
  snd (discover_tools host exiting_env fresh_world) = Raise (SystemExit_ "1") /\
  console (fst (discover_tools host exiting_env fresh_world))
  = [MScanning (tools_dir host); MFound ["gh_tools.py"; "rhino_tools.py"]] /\
  decorated (fst (discover_tools host exiting_env fresh_world)) = [].
Proof. repeat split; vm_compute; reflexivity. Qed.

(** Two discoveries in a row over the example directory leave one tool in
    each of the two lists and two handlers, not two and four. *)
Example discover_twice_no_duplicates :
  let w2 := fst (discover_tools host tools_env
                   (fst (discover_tools host tools_env fresh_world))) in
  List.map name (_rhino_tools (registry w2)) = ["draw_line_rhino"] /\
  List.map name (_gh_tools (registry w2)) = ["list_gh_files"] /\
  size (_bridge_handlers (registry w2)) = 2%nat /\
  console w2 =
  [ MScanning (tools_dir host); MFound ["gh_tools.py"; "rhino_tools.py"];
    MLoaded "gh_tools" false; MLoaded "rhino_tools" false; MRegistered 1 1 0 2;
    MScanning (tools_dir host); MFound ["gh_tools.py"; "rhino_tools.py"];
    MReloaded "gh_tools" false; MReloaded "rhino_tools" false; MRegistered 1 1 0 2 ].
Proof. repeat split; vm_compute; reflexivity. Qed.

(** ** Properties of the bridge server *)

Section Serializable.

Lemma of_json_serializable : forall j, json_serializable (of_json j) = true.
Proof.
  fix IH 1. intros [ | b | z | r | s | l | d]; simpl; try reflexivity.
  - induction l as [|x l IHl]; simpl; [reflexivity|]. rewrite IH, IHl. reflexivity.
  - induction d as [|[k x] d IHd]; simpl; [reflexivity|]. rewrite IH, IHd. reflexivity.
Qed.

Lemma strings_serializable (l : list string) :
  forallb json_serializable (List.map PStr l) = true.
Proof. induction l; simpl; auto. Qed.

Lemma send_serializable data status :
  json_serializable data = true ->
  send_json_response data status = ([SendHeaders status; WriteBody data], Return tt).
Proof. intros Hs. unfold send_json_response. rewrite Hs. reflexivity. Qed.

Lemma send_unserializable data status :
  json_serializable data = false ->
  send_json_response data status = ([SendHeaders status], Raise (not_serializable data)).
Proof. intros Hs. unfold send_json_response. rewrite Hs. reflexivity. Qed.

Lemma not_found_serializable endpoint handlers :
  json_serializable (not_found_response endpoint handlers) = true.
Proof. simpl. rewrite strings_serializable. reflexivity. Qed.

Lemma handler_error_serializable endpoint data e :
  json_serializable data = true ->
  json_serializable (handler_error_response endpoint data e) = true.
Proof. intros Hs. simpl. rewrite Hs. reflexivity. Qed.

Lemma exception_response_serializable H endpoint func data e :
  json_serializable data = true ->
  json_serializable (exception_response H endpoint func data e) = true.
Proof. intros Hs. simpl. rewrite strings_serializable, Hs. reflexivity. Qed.

Lemma info_serializable s : json_serializable (info_response s) = true.
Proof.
  simpl. rewrite andb_true_r.
  induction (sorted_endpoints (_dynamic_handlers s)); simpl; auto.
Qed.

Lemma read_request_data_serializable L req data :
  read_request_data L req = Return data -> json_serializable data = true.
Proof.
  unfold read_request_data. destruct (content_length_value L req) as [n|]; [|discriminate].
  destruct (0 <? n); [|intros [= <-]; reflexivity].
  destruct (json_loads_utf8 L _); [|discriminate].
  intros [= <-]. apply of_json_serializable.
Qed.

End Serializable.

Section Server.

Variable H : Host.
Variable E : ImportEnv.
Variable L : Libs.

(** C9: a GET request gets content only on '/status' and '/info', any
    other path gets the 404 error body, and neither [do_GET] nor
    [do_OPTIONS] calls a registered handler. *)
Theorem do_GET_only_status_and_info s req :
  let '(s', evs, r) := do_GET H E s req in
  (path req = "/status" ->
     s' = s /\ r = Return tt /\ evs = [SendHeaders 200; WriteBody (status_response s)]) /\
  (path req = "/info" ->
     forall s1, ensure_initialized H E s = (s1, Return tt) ->
     s' = s1 /\ r = Return tt /\ evs = [SendHeaders 200; WriteBody (info_response s1)]) /\
  (path req <> "/status" -> path req <> "/info" ->
     s' = s /\ r = Return tt /\
     evs = [SendHeaders 404;
            WriteBody (PDict [("success", PBool false);
                              ("error", PStr "Endpoint not found");
                              ("status_code", PInt 404)])]) /\
  forallb (fun ev => negb (is_invoke ev)) evs = true /\
  forallb (fun ev => negb (is_invoke ev)) (snd (fst (do_OPTIONS s req))) = true.
Proof.
  unfold do_GET.
  destruct (String.eqb_spec (path req) "/status") as [Hst|Hst].
  { simpl. repeat split; try reflexivity; try congruence. }
  destruct (String.eqb_spec (path req) "/info") as [Hin|Hin].
  2:{ simpl. repeat split; try reflexivity; try congruence. }
  destruct (ensure_initialized H E s) as [s1 [[]|e]].
  - rewrite (send_serializable _ _ (info_serializable s1)).
    repeat split; try reflexivity; try congruence; intros; congruence.
  - repeat split; try reflexivity; try congruence; intros; congruence.
Qed.

Lemma do_POST_dispatch s s1 req data :
  ensure_initialized H E s = (s1, Return tt) ->
  read_request_data L req = Return data ->
  do_POST H E L s req =
  (s1, fst (dispatch (_dynamic_handlers s1) (urlparse_path L (path req)) data),
       snd (dispatch (_dynamic_handlers s1) (urlparse_path L (path req)) data)).
Proof.
  intros Hi Hr. unfold do_POST. rewrite Hi, Hr.
  destruct (dispatch _ _ _); reflexivity.
Qed.

Lemma outer_except_events endpoint data evs e :
  exists more, fst (outer_except endpoint data evs e) = (evs ++ more)%list /\
               forallb (fun ev => negb (is_invoke ev)) more = true.
Proof.
  unfold outer_except, send_json_response.
  repeat match goal with |- context [if ?b then _ else _] => destruct b end;
    simpl; try (eexists; split; reflexivity).
  exists []. rewrite app_nil_r. split; reflexivity.
Qed.

Lemma inner_except_events endpoint data evs e :
  exists more, fst (inner_except endpoint data evs e) = (evs ++ more)%list /\
               forallb (fun ev => negb (is_invoke ev)) more = true.
Proof.
  unfold inner_except.
  destruct (isinstance e Exception); [|apply outer_except_events].
  unfold send_json_response. destruct (json_serializable _); simpl.
  - eexists. split; reflexivity.
  - destruct (outer_except_events endpoint data (evs ++ [SendHeaders 500])%list
                (not_serializable (handler_error_response endpoint data e)))
      as (more & -> & Hno).
    exists (SendHeaders 500 :: more). rewrite <- app_assoc. split; [reflexivity|exact Hno].
Qed.

Lemma dispatch_invokes_once handlers endpoint data h :
  handlers !! endpoint = Some h ->
  exists rest, fst (dispatch handlers endpoint data) = Invoke endpoint data :: rest /\
               forallb (fun ev => negb (is_invoke ev)) rest = true.
Proof.
  intros Hh. unfold dispatch. rewrite Hh.
  destruct (fn_call h data) as [v|e].
  - unfold send_json_response. destruct (json_serializable v); simpl.
    + eexists. split; reflexivity.
    + destruct (inner_except_events endpoint data [Invoke endpoint data; SendHeaders 200]
                  (not_serializable v)) as (more & -> & Hno).
      exists (SendHeaders 200 :: more). split; [reflexivity|exact Hno].
  - destruct (inner_except_events endpoint data [Invoke endpoint data] e)
      as (more & -> & Hno).
    exists more. split; [reflexivity|exact Hno].
Qed.

Lemma sorted_endpoints_spec (handlers : gmap string PyFunc) :
  Sorted String.le (sorted_endpoints handlers) /\
  sorted_endpoints handlers ≡ₚ List.map fst (map_to_list handlers).
Proof.
  split; [apply Sorted_merge_sort; apply _|apply merge_sort_Permutation].
Qed.

(** C3 (as amended): for a POST request whose body parses as JSON, a path
    that is a key of the handler map makes the server call exactly that
    handler, once, with the parsed body (the empty dict when
    Content-Length is not positive), and, when the handler returns a value
    [json.dumps] accepts, reply with that value; a path that is not a key
    gets status 404 with "success": false, "error_type":
    "EndpointNotFound" and the sorted list of the registered endpoints. *)
Theorem do_POST_dispatches s s1 req data :
  ensure_initialized H E s = (s1, Return tt) ->
  read_request_data L req = Return data ->
  let endpoint := urlparse_path L (path req) in
  let handlers := _dynamic_handlers s1 in
  let '(s', evs, r) := do_POST H E L s req in
  s' = s1 /\
  (forall n, content_length_value L req = Return n ->
     if 0 <? n
     then exists j, json_loads_utf8 L (str_prefix (Z.to_nat n) (rfile req)) = Return j /\
                    data = of_json j
     else data = PDict []) /\
  (forall h, handlers !! endpoint = Some h ->
     exists rest, evs = Invoke endpoint data :: rest /\
                  forallb (fun ev => negb (is_invoke ev)) rest = true) /\
  (forall h v, handlers !! endpoint = Some h -> fn_call h data = Return v ->
     json_serializable v = true ->
     evs = [Invoke endpoint data; SendHeaders 200; WriteBody v] /\ r = Return tt) /\
  (handlers !! endpoint = None ->
     exists body eps,
       evs = [SendHeaders 404; WriteBody (PDict body)] /\ r = Return tt /\
       dict_get "success" body = Some (PBool false) /\
       dict_get "error_type" body = Some (PStr "EndpointNotFound") /\
       dict_get "available_endpoints" body = Some (PList (List.map PStr eps)) /\
       Sorted String.le eps /\ eps ≡ₚ List.map fst (map_to_list handlers)).
Proof.
  intros Hi Hr endpoint handlers. rewrite (do_POST_dispatch s s1 req data Hi Hr).
  fold endpoint handlers. split; [reflexivity|]. split; [|split; [|split]].
  - intros n Hn. revert Hr. unfold read_request_data. rewrite Hn.
    destruct (0 <? n); [|congruence].
    destruct (json_loads_utf8 L _) as [j|]; [|discriminate].
    intros [= <-]. exists j. split; reflexivity.
  - intros h Hh. eapply dispatch_invokes_once, Hh.
  - intros h v Hh Hv Hs. unfold dispatch. rewrite Hh, Hv, (send_serializable _ _ Hs).
    split; reflexivity.
  - intros Hnone. unfold dispatch. rewrite Hnone.
    rewrite (send_serializable _ _ (not_found_serializable endpoint handlers)).
    destruct (sorted_endpoints_spec handlers) as (Hsorted & Hperm).
    eexists _, (sorted_endpoints handlers).
    repeat split; try reflexivity; assumption.
Qed.

End Server.

Lemma do_GET_only_status_and_info_witness :
  snd (fst (do_GET host tools_env draw_line_server (mkRequest "/draw_line" None "")))
  = [SendHeaders 404;
     WriteBody (PDict [("success", PBool false);
                       ("error", PStr "Endpoint not found");
                       ("status_code", PInt 404)])].
Proof.
  pose proof (do_GET_only_status_and_info host tools_env draw_line_server
                (mkRequest "/draw_line" None "")) as Hw.
  destruct (do_GET host tools_env draw_line_server (mkRequest "/draw_line" None ""))
    as [[s' evs] r].
  destruct Hw as (_ & _ & H404 & _). simpl.
  apply H404; simpl; discriminate.
Defined.

Lemma do_POST_dispatches_witness :
  snd (fst (do_POST host tools_env plain_libs list_files_server (post "/list_gh_files")))
  = [Invoke "/list_gh_files" (PDict []); SendHeaders 200;
     WriteBody (PDict [("files", PList []); ("success", PBool true)])].
Proof.
  pose proof (do_POST_dispatches host tools_env plain_libs list_files_server
                list_files_server (post "/list_gh_files") (PDict []) eq_refl eq_refl) as Hw.
  destruct (do_POST host tools_env plain_libs list_files_server (post "/list_gh_files"))
    as [[s' evs] r].
  destruct Hw as (_ & _ & _ & Hok & _). simpl.
  eapply Hok; [apply wrapper_registered|reflexivity|reflexivity].
Defined.

(** The claim of C3 as written fails when the handler's return value is
    not something [json.dumps] accepts: the path is registered and the
    body parses, yet what follows the 200 status line is the status line
    and the body of the 500 "Handler error" reply, not the return
    value. *)
Lemma do_POST_unserializable_result :
  let v := PDict [("success", PBool true); ("objects", PList [PObj "Point3d"])] in
  read_request_data plain_libs (post "/get_objects") = Return (PDict []) /\
  (exists h, _dynamic_handlers objects_server !! "/get_objects" = Some h /\
             fn_call h (PDict []) = Return v) /\
  snd (fst (do_POST host tools_env plain_libs objects_server (post "/get_objects")))
  = [Invoke "/get_objects" (PDict []); SendHeaders 200; SendHeaders 500;
     WriteBody (handler_error_response "/get_objects" (PDict []) (not_serializable v))].
Proof.
  split; [reflexivity|]. split.
  - eexists. split; [apply lookup_singleton_eq|reflexivity].
  - vm_compute. reflexivity.
Qed.

Section WrappedHandlers.

Variable H : Host.
Variable E : ImportEnv.
Variable L : Libs.

Lemma wrapper_raises_no_Exception endpoint func data e :
  fn_call (wrapper H endpoint func) data = Raise e -> isinstance e Exception = false.
Proof.
  simpl. unfold wrapper_call. destruct (fn_call func data) as [res|e'].
  - destruct res; try discriminate. destruct (dict_has "success" d); discriminate.
  - destruct (isinstance e' Exception) eqn:He; [discriminate|]. intros [= <-]. exact He.
Qed.

(** C6 (as amended): a handler registered through [@bridge_handler] never
    raises an [Exception] when [do_POST] calls it, and an [Exception]
    raised by the underlying function is reported with status 200 and a
    "success": false body; the 500 "Handler error" reply is still sent for
    such a handler when the value it returns is not JSON-serializable. *)
Theorem wrapped_handler_exception_is_200 s s1 req data ep func :
  ensure_initialized H E s = (s1, Return tt) ->
  read_request_data L req = Return data ->
  _dynamic_handlers s1 !! urlparse_path L (path req) = Some (wrapper H ep func) ->
  let endpoint := urlparse_path L (path req) in
  (forall d e, fn_call (wrapper H ep func) d = Raise e -> isinstance e Exception = false) /\
  (forall e, fn_call func data = Raise e -> isinstance e Exception = true ->
     exists d,
       do_POST H E L s req
       = (s1, [Invoke endpoint data; SendHeaders 200; WriteBody (PDict d)], Return tt) /\
       dict_get "success" d = Some (PBool false) /\
       dict_get "error_type" d = Some (PStr (exc_name e))) /\
  (forall v, fn_call (wrapper H ep func) data = Return v -> json_serializable v = false ->
     do_POST H E L s req
     = (s1, [Invoke endpoint data; SendHeaders 200; SendHeaders 500;
             WriteBody (handler_error_response endpoint data (not_serializable v))],
        Return tt)).
Proof.
  intros Hi Hr Hh endpoint. pose proof (read_request_data_serializable _ _ _ Hr) as Hser.
  split; [intros d e; apply wrapper_raises_no_Exception|]. split.
  - intros e He Hexc. rewrite (do_POST_dispatch H E L s s1 req data Hi Hr).
    fold endpoint. unfold dispatch. fold endpoint in Hh. rewrite Hh.
    simpl. unfold wrapper_call. rewrite He, Hexc.
    rewrite (send_serializable _ _ (exception_response_serializable H ep func data e Hser)).
    eexists. split; [reflexivity|]. split; reflexivity.
  - intros v Hv Hns. rewrite (do_POST_dispatch H E L s s1 req data Hi Hr).
    fold endpoint. unfold dispatch. fold endpoint in Hh. rewrite Hh, Hv.
    rewrite (send_unserializable _ _ Hns). unfold inner_except.
    replace (isinstance (not_serializable v) Exception) with true by reflexivity.
    rewrite (send_serializable _ _ (handler_error_serializable endpoint data _ Hser)).
    reflexivity.
Qed.

End WrappedHandlers.

Lemma wrapped_handler_exception_is_200_witness :
  exists d,
    do_POST host tools_env plain_libs failing_server (post "/draw_line")
    = (failing_server,
       [Invoke "/draw_line" (PDict []); SendHeaders 200; WriteBody (PDict d)], Return tt) /\
    dict_get "success" d = Some (PBool false) /\
    dict_get "error_type" d = Some (PStr "ValueError").
Proof.
  exact (proj1 (proj2 (wrapped_handler_exception_is_200 host tools_env plain_libs
                         failing_server failing_server (post "/draw_line") (PDict [])
                         "/draw_line" failing_handler eq_refl eq_refl
                         (wrapper_registered host "/draw_line" failing_handler empty_registry)))
               (ValueError_ "could not convert string to float") eq_refl eq_refl).
Defined.

(** The claim of C6 as written fails: the handler is registered through
    [@bridge_handler] and raises nothing, but its result holds a host
    object, so sending it raises inside the inner [try] and the branch
    that answers 500 with "Handler error" runs. *)
Lemma handler_error_branch_reached :
  _dynamic_handlers draw_line_server !! "/draw_line"
  = Some (wrapper host "/draw_line" guid_handler) /\
  fn_call (wrapper host "/draw_line" guid_handler) (PDict [])
  = Return (PDict [("success", PBool true); ("line_id", PObj "Guid")]) /\
  exists body,
    snd (fst (do_POST host tools_env plain_libs draw_line_server (post "/draw_line")))
    = [Invoke "/draw_line" (PDict []); SendHeaders 200; SendHeaders 500;
       WriteBody (PDict body)] /\
    dict_get "error" body
    = Some (PStr "Handler error: Object of type Guid is not JSON serializable") /\
    dict_get "error_type" body = Some (PStr "TypeError").
Proof.
  split; [apply wrapper_registered|]. split; [reflexivity|].
  eexists. split; [vm_compute; reflexivity|]. split; reflexivity.
Qed.

(** ** Properties of the bridge client *)

Section Client.

Variable R : Requests.
Variable BRIDGE_URL : string.

Lemma call_bridge_api_calls endpoint data :
  fst (call_bridge_api R BRIDGE_URL endpoint data)
  = [match data with
     | None => GET (BRIDGE_URL ++ endpoint)
     | Some d => POST (BRIDGE_URL ++ endpoint) d
     end].
Proof.
  unfold call_bridge_api.
  destruct data as [d|];
    [destruct (requests_post R _ d) as [r|]|destruct (requests_get R _) as [r|]];
    try reflexivity; destruct (is_error_status r); try reflexivity;
    destruct (json r); reflexivity.
Qed.

Lemma call_bridge_api_outcome endpoint data :
  snd (call_bridge_api R BRIDGE_URL endpoint data)
  = match sent R (BRIDGE_URL ++ endpoint) data with
    | Raise e => handle_error BRIDGE_URL endpoint data None e
    | Return r =>
        if is_error_status r
        then handle_error BRIDGE_URL endpoint data (Some r)
                          (HTTPError_ r (BRIDGE_URL ++ endpoint))
        else match json r with
             | Return v => Return v
             | Raise e => handle_error BRIDGE_URL endpoint data (Some r) e
             end
    end.
Proof.
  unfold call_bridge_api, sent.
  destruct data as [d|];
    [destruct (requests_post R _ d) as [r|]|destruct (requests_get R _) as [r|]];
    try reflexivity; destruct (is_error_status r); try reflexivity;
    destruct (json r); reflexivity.
Qed.

Lemma handle_error_replies endpoint data response e :
  is_handled e ->
  is_error_reply endpoint e (handle_error BRIDGE_URL endpoint data response e).
Proof.
  intros (kind & C & Hin & Hinst). unfold handle_error, is_error_reply.
  destruct (isinstance e ConnectionError) eqn:H1.
  { eexists _, _, "ConnectionError", ConnectionError.
    repeat split; try reflexivity; [simpl; auto|exact H1]. }
  destruct (isinstance e Timeout) eqn:H2.
  { eexists _, _, "Timeout", Timeout.
    repeat split; try reflexivity; [simpl; auto|exact H2]. }
  destruct (isinstance e HTTPError) eqn:H3.
  { eexists _, _, "HTTPError", HTTPError.
    repeat split; try reflexivity; [simpl; auto|exact H3]. }
  destruct (isinstance e RequestException) eqn:H4.
  { eexists _, _, "RequestException", RequestException.
    repeat split; try reflexivity; [simpl; auto 6|exact H4]. }
  destruct (isinstance e JSONDecodeError) eqn:H5.
  { eexists _, _, "JSONDecodeError", JSONDecodeError.
    repeat split; try reflexivity; [simpl; auto 6|exact H5]. }
  exfalso. simpl in Hin.
  destruct Hin as [Hk|[Hk|[Hk|[Hk|[Hk|[]]]]]]; injection Hk as _ <-; congruence.
Qed.

(** C4: whenever the request fails with a connection error, a timeout,
    an HTTP error status, another [requests] exception or a body that is
    not JSON, [call_bridge_api] returns a dict with "success": false, an
    "error" message, an "error_type" that names a kind the failure belongs
    to, and the requested "endpoint"; when nothing fails it returns the
    parsed JSON body as it is. *)
Theorem call_bridge_api_returns endpoint data :
  let out := snd (call_bridge_api R BRIDGE_URL endpoint data) in
  let attempt := sent R (BRIDGE_URL ++ endpoint) data in
  (forall e, attempt = Raise e -> is_handled e -> is_error_reply endpoint e out) /\
  (forall r, attempt = Return r -> is_error_status r = true ->
     exists d msg,
       out = Return (PDict d) /\
       dict_get "success" d = Some (PBool false) /\
       dict_get "error" d = Some (PStr msg) /\
       dict_get "error_type" d = Some (PStr "HTTPError") /\
       dict_get "endpoint" d = Some (PStr endpoint)) /\
  (forall r e, attempt = Return r -> is_error_status r = false ->
     json r = Raise e -> is_handled e -> is_error_reply endpoint e out) /\
  (forall r v, attempt = Return r -> is_error_status r = false ->
     json r = Return v -> out = Return v).
Proof.
  cbv zeta. rewrite call_bridge_api_outcome. repeat split.
  - intros e -> He. apply handle_error_replies, He.
  - intros r -> ->. eexists _, _. repeat split; reflexivity.
  - intros r e -> -> -> He. apply handle_error_replies, He.
  - intros r v -> -> ->. reflexivity.
Qed.

(** C8: with [data] not [None], [call_bridge_api] makes exactly one HTTP
    request, a POST to [BRIDGE_URL + endpoint] with [data] as its JSON
    body; a GET is made only when [data] is [None]; and every registered
    tool that goes to the bridge passes a dict. *)
Theorem call_bridge_api_posts_once :
  (forall endpoint d,
     fst (call_bridge_api R BRIDGE_URL endpoint (Some d))
     = [POST (BRIDGE_URL ++ endpoint) d]) /\
  (forall endpoint data url,
     In (GET url) (fst (call_bridge_api R BRIDGE_URL endpoint data)) -> data = None) /\
  (forall t, exists d,
     snd (bridge_arguments t) = Some (PDict d) /\
     fst (run_tool R BRIDGE_URL t)
     = [POST (BRIDGE_URL ++ fst (bridge_arguments t)) (PDict d)]).
Proof.
  repeat split.
  - intros endpoint d. apply call_bridge_api_calls.
  - intros endpoint data url. rewrite call_bridge_api_calls.
    destruct data; [|reflexivity]. intros [Hc|[]]. discriminate.
  - intros t. unfold run_tool. rewrite call_bridge_api_calls.
    destruct t; eexists; split; reflexivity.
Qed.

End Client.

Lemma call_bridge_api_returns_witness :
  is_error_reply "/draw_line" requests_ConnectionError
    (snd (call_bridge_api offline "http://localhost:8080" "/draw_line" (Some (PDict [])))).
Proof.
  apply (proj1 (call_bridge_api_returns offline "http://localhost:8080" "/draw_line"
                  (Some (PDict []))) requests_ConnectionError eq_refl).
  exists "ConnectionError", ConnectionError. split; [simpl; auto|reflexivity].
Defined.

Lemma call_bridge_api_posts_once_witness :
  In (GET "http://localhost:8080/status")
     (fst (call_bridge_api online "http://localhost:8080" "/status" None)) /\
  (None : option PyVal) = None.
Proof.
  assert (Hin : In (GET "http://localhost:8080/status")
                   (fst (call_bridge_api online "http://localhost:8080" "/status" None))).
  { left. reflexivity. }
  split; [exact Hin|].
  exact (proj1 (proj2 (call_bridge_api_posts_once online "http://localhost:8080"))
           "/status" None "http://localhost:8080/status" Hin).
Defined.

(** The list of parameters comes back as the bridge sent it. *)
Example list_eml_parameters_online :
  run_tool online "http://localhost:8080" list_eml_parameters
  = ([POST "http://localhost:8080/list_eml_parameters" (PDict [])],
     Return (PDict [("success", PBool true); ("parameters", PList [])])).
Proof. reflexivity. Qed.

(** On an HTTP error status the local [response] is falsy, so the reply
    carries "unknown" instead of the status code. *)
Example status_code_unknown_on_http_error :
  snd (call_bridge_api online "http://localhost:8080" "/status" None)
  = Return (PDict [ ("success", PBool false);
                    ("error", PStr "HTTP unknown error from bridge server");
                    ("error_type", PStr "HTTPError");
                    ("status_code", PStr "unknown");
                    ("endpoint", PStr "/status");
                    ("response_body", PStr "No response");
                    ("request_data", PNone) ]).
Proof. reflexivity. Qed.

(** ** [get_bridge_handlers] hands out a copy *)

Section Copy.

Import Objects.

Lemma mutate_all_ref r ops st :
  bridge_handlers_ref (mutate_all r ops st) = bridge_handlers_ref st.
Proof.
  revert st. induction ops as [|op ops IH]; intros st; [reflexivity|].
  simpl. rewrite IH. reflexivity.
Qed.

Lemma mutate_all_other r r' ops st :
  r <> r' -> items r' (mutate_all r ops st) = items r' st.
Proof.
  intros Hne. revert st. induction ops as [|op ops IH]; intros st; [reflexivity|].
  simpl. rewrite IH. unfold items, mutate. simpl. apply lookup_alter_ne, Hne.
Qed.

Lemma mutate_all_same r ops st d :
  items r st = Some d ->
  items r (mutate_all r ops st) = Some (fold_left (fun d op => apply_op op d) ops d).
Proof.
  revert st d. induction ops as [|op ops IH]; intros st d Hd; [exact Hd|].
  simpl. apply IH. unfold items, mutate. simpl. rewrite lookup_alter_eq.
  unfold items in Hd. rewrite Hd. reflexivity.
Qed.

Lemma dict_copy_spec r st d :
  items r st = Some d ->
  let '(st1, new) := dict_copy r st in
  new <> r /\ items new st1 = Some d /\ bridge_handlers_ref st1 = bridge_handlers_ref st /\
  forall r', r' <> new -> items r' st1 = items r' st.
Proof.
  intros Hd. unfold dict_copy, items in *. simpl.
  pose proof (is_fresh (dom (objects st))) as Hfresh.
  apply not_elem_of_dom_1 in Hfresh.
  repeat split.
  - intros Heq. rewrite Heq, Hd in Hfresh. discriminate.
  - rewrite lookup_insert_eq, Hd. reflexivity.
  - intros r' Hne. apply lookup_insert_ne. congruence.
Qed.

(** C10: the dict [get_bridge_handlers] returns is a new object with the
    items of [_bridge_handlers]; setting, deleting or replacing entries in
    it, or clearing it, leaves [_bridge_handlers] as it was, and a later
    call returns those items again. *)
Theorem get_bridge_handlers_returns_copy st ops d :
  registry_items st = Some d ->
  let '(st1, r) := get_bridge_handlers st in
  let st2 := mutate_all r ops st1 in
  let '(st3, r') := get_bridge_handlers st2 in
  r <> bridge_handlers_ref st /\
  items r st1 = Some d /\
  items r st2 = Some (fold_left (fun d op => apply_op op d) ops d) /\
  registry_items st2 = Some d /\
  items r' st3 = Some d /\
  registry_items st3 = Some d.
Proof.
  intros Hd. unfold get_bridge_handlers, registry_items in *.
  pose proof (dict_copy_spec (bridge_handlers_ref st) st d Hd) as H1.
  destruct (dict_copy (bridge_handlers_ref st) st) as [st1 r].
  destruct H1 as (Hne & Hr & Href & Hother). cbv zeta.
  assert (H2 : items (bridge_handlers_ref (mutate_all r ops st1)) (mutate_all r ops st1)
               = Some d).
  { rewrite mutate_all_ref, Href, mutate_all_other by exact Hne.
    rewrite Hother by congruence. exact Hd. }
  pose proof (dict_copy_spec _ _ d H2) as H3.
  destruct (dict_copy (bridge_handlers_ref (mutate_all r ops st1)) (mutate_all r ops st1))
    as [st3 r'].
  destruct H3 as (Hne' & Hr' & Href' & Hother').
  repeat split.
  - exact Hne.
  - exact Hr.
  - apply mutate_all_same, Hr.
  - exact H2.
  - exact Hr'.
  - rewrite Href', Hother' by congruence. exact H2.
Qed.

End Copy.

Lemma get_bridge_handlers_returns_copy_witness :
  let '(st1, r) := Objects.get_bridge_handlers one_handler_store in
  let st2 := Objects.mutate_all r [Objects.DelItem "/draw_line"; Objects.Clear] st1 in
  let '(st3, r') := Objects.get_bridge_handlers st2 in
  r <> Objects.bridge_handlers_ref one_handler_store /\
  Objects.items r st1 = Some {[ "/draw_line" := wrapper host "/draw_line" failing_handler ]} /\
  Objects.items r st2
  = Some (fold_left (fun d op => Objects.apply_op op d)
            [Objects.DelItem "/draw_line"; Objects.Clear]
            {[ "/draw_line" := wrapper host "/draw_line" failing_handler ]}) /\
  Objects.registry_items st2
  = Some {[ "/draw_line" := wrapper host "/draw_line" failing_handler ]} /\
  Objects.items r' st3 = Some {[ "/draw_line" := wrapper host "/draw_line" failing_handler ]} /\
  Objects.registry_items st3
  = Some {[ "/draw_line" := wrapper host "/draw_line" failing_handler ]}.
Proof.
  apply (get_bridge_handlers_returns_copy one_handler_store
           [Objects.DelItem "/draw_line"; Objects.Clear]
           {[ "/draw_line" := wrapper host "/draw_line" failing_handler ]}).
  apply lookup_singleton_eq.
Defined.

(** Had the caller been given [_bridge_handlers] itself, the same
    operations would have reached the registry. *)
Example mutation_through_the_registry_reference :
  Objects.registry_items
    (Objects.mutate_all (Objects.bridge_handlers_ref one_handler_store)
       [Objects.Clear] one_handler_store)
  = Some ∅.
Proof. reflexivity. Qed.

(** ** More of tool_registry.py *)

Lemma dict_get_set k k' v d :
  dict_get k (dict_set k' v d) = if String.eqb k k' then Some v else dict_get k d.
Proof.
  induction d as [|[k0 v0] d IH]; simpl.
  - destruct (String.eqb k k'); reflexivity.
  - destruct (String.eqb_spec k' k0) as [->|Hne]; simpl.
    + destruct (String.eqb k k0); reflexivity.
    + rewrite IH. destruct (String.eqb_spec k k0) as [->|Hne'];
        [|reflexivity].
      destruct (String.eqb_spec k0 k'); [congruence|reflexivity].
Qed.

Section RegistryExtras.

Variable H : Host.

(** Two handlers decorated for one endpoint: the later one replaces the
    earlier, the other endpoints and the tool lists stay as they were. *)
Theorem bridge_handler_last_wins ep f g r :
  let r1 := bridge_handler H ep f r in
  let r2 := bridge_handler H ep g r1 in
  _bridge_handlers r2 !! ep = Some (wrapper H ep g) /\
  _bridge_handlers r2 = _bridge_handlers (bridge_handler H ep g r) /\
  (forall ep', ep' <> ep -> _bridge_handlers r2 !! ep' = _bridge_handlers r !! ep') /\
  _rhino_tools r2 = _rhino_tools r /\ _gh_tools r2 = _gh_tools r /\
  _custom_tools r2 = _custom_tools r.
Proof.
  simpl. repeat split.
  - apply lookup_insert_eq.
  - apply insert_insert_eq.
  - intros ep' Hne. rewrite !lookup_insert_ne by congruence. reflexivity.
Qed.

(** Decorating a function twice changes nothing about its results: the
    outer wrapper passes on what the inner one returns or raises. *)
Theorem wrapper_of_wrapper ep1 ep2 func data :
  fn_call (wrapper H ep2 (wrapper H ep1 func)) data
  = fn_call (wrapper H ep1 func) data.
Proof.
  simpl. unfold wrapper_call at 1. simpl. unfold wrapper_call.
  destruct (fn_call func data) as [res|e].
  - destruct res; try reflexivity.
    destruct (dict_has "success" d) eqn:Hhas; [rewrite Hhas; reflexivity|].
    unfold dict_has. rewrite dict_get_set. reflexivity.
  - destruct (isinstance e Exception) eqn:He; [reflexivity|].
    rewrite He. reflexivity.
Qed.

(** The replies the wrapper builds itself can always be sent: for a
    request payload that [json.dumps] accepts, the dict for a caught
    exception and the dict for a non-dict result are JSON-serializable. *)
Theorem wrapper_error_replies_serializable ep func data v :
  json_serializable data = true ->
  fn_call (wrapper H ep func) data = Return v ->
  (forall d, fn_call func data <> Return (PDict d)) ->
  json_serializable v = true /\ get_item "success" v = Some (PBool false).
Proof.
  intros Hser Hv Hnd. simpl in Hv. unfold wrapper_call in Hv.
  destruct (fn_call func data) as [res|e].
  - destruct res; try (injection Hv as <-; split; reflexivity).
    exfalso. eapply Hnd. reflexivity.
  - destruct (isinstance e Exception); [|discriminate]. injection Hv as <-.
    split; [apply exception_response_serializable, Hser|reflexivity].
Qed.

Lemma last_n_suffix {A} n (l : list A) :
  exists pre, l = (pre ++ last_n n l)%list /\ (List.length (last_n n l) <= n)%nat /\
              ((List.length l <= n)%nat -> last_n n l = l).
Proof.
  unfold last_n. exists (List.firstn (List.length l - n) l). repeat split.
  - symmetry. apply firstn_skipn.
  - rewrite length_skipn. lia.
  - intros Hle. replace (List.length l - n)%nat with 0%nat by lia. reflexivity.
Qed.

(** The "traceback_lines" of the error reply are the last lines of the
    traceback, never more than ten, and all of them when the traceback has
    ten lines or fewer. *)
Theorem traceback_lines_last_ten ep func data e :
  exists lines pre,
    get_item "traceback_lines" (exception_response H ep func data e)
    = Some (PList (List.map PStr lines)) /\
    split_lines (exc_traceback e) = (pre ++ lines)%list /\
    (List.length lines <= 10)%nat /\
    ((List.length (split_lines (exc_traceback e)) <= 10)%nat ->
     lines = split_lines (exc_traceback e)).
Proof.
  destruct (last_n_suffix 10 (split_lines (exc_traceback e))) as (pre & Hpre & Hlen & Hall).
  exists (last_n 10 (split_lines (exc_traceback e))), pre.
  split; [reflexivity|]. split; [exact Hpre|]. split; assumption.
Qed.

(** The "file_line" of the error reply is "Unknown" unless some line of
    the traceback names a .py file under Tools; then it is the first such
    line, stripped. *)
Theorem find_file_line_spec tb_lines :
  let hit line := contains "File" line && contains ".py" line &&
                  (contains "Tools" line || contains (tools_dir H) line) in
  (Forall (fun line => hit line = false) tb_lines ->
   find_file_line (tools_dir H) tb_lines = "Unknown") /\
  (forall pre line post,
     tb_lines = (pre ++ line :: post)%list ->
     Forall (fun l => hit l = false) pre -> hit line = true ->
     find_file_line (tools_dir H) tb_lines = strip line).
Proof.
  cbv zeta. split.
  - induction 1 as [|line rest Hl _ IH]; simpl; [reflexivity|]. rewrite Hl. exact IH.
  - intros pre line post -> Hpre Hhit. induction Hpre as [|l pre Hl _ IH]; simpl.
    + rewrite Hhit. reflexivity.
    + rewrite Hl. exact IH.
Qed.

End RegistryExtras.

Section DiscoveryExtras.

Variable H : Host.
Variable E : ImportEnv.

Lemma discover_one_cwd module_name w :
  cwd (fst (discover_one H E module_name w)) = cwd w.
Proof.
  unfold discover_one.
  destruct (import_attempt H E module_name module_name false _) as [w1 [[]|e1]];
    [reflexivity|].
  destruct (isinstance e1 ImportError).
  - destruct (import_attempt H E ("Tools." ++ module_name) module_name true _)
      as [w2 [[]|e2]]; [reflexivity|].
    destruct (isinstance e2 Exception); reflexivity.
  - destruct (isinstance e1 Exception); reflexivity.
Qed.

Lemma discover_loop_cwd files w :
  cwd (fst (discover_loop H E files w)) = cwd w.
Proof.
  revert w. induction files as [|f rest IH]; intros w; simpl; [reflexivity|].
  pose proof (discover_one_cwd (module_name_of f) w) as Hc.
  destruct (discover_one H E (module_name_of f) w) as [w' [[]|e]]; simpl in *.
  - rewrite IH. exact Hc.
  - exact Hc.
Qed.

Lemma discover_tools_restores_cwd_aux w :
  cwd (fst (discover_tools H E w)) = cwd w.
Proof.
  unfold discover_tools.
  pose proof (discover_loop_cwd (discovered_files E)
                (print (MFound (discovered_files E))
                   (print (MScanning (tools_dir H)) (set_registry empty_registry w))))
    as Hc.
  destruct (discover_loop H E _ _) as [w3 [[]|e]]; exact Hc.
Qed.

(** [discover_tools] leaves the working directory where it found it,
    whether the modules import, fail, or abort the discovery. *)
Theorem discover_tools_restores_cwd w :
  cwd (fst (discover_tools H E w)) = cwd w /\
  forall module_name w0, cwd (fst (discover_one H E module_name w0)) = cwd w0.
Proof. split; [apply discover_tools_restores_cwd_aux|apply discover_one_cwd]. Qed.

Lemma import_module_sys_modules name w :
  sys_modules w ⊆ sys_modules (fst (import_module H E name w)).
Proof.
  unfold import_module. destruct (bool_decide_reflect (name ∈ sys_modules w)) as [|Hn];
    [reflexivity|].
  destruct (find_module E (cwd w) name) as [body|]; [|reflexivity].
  rewrite exec_body_spec. destruct (first_raise body); simpl; set_solver.
Qed.

Lemma reload_sys_modules name w :
  sys_modules (fst (reload H E name w)) = sys_modules w.
Proof.
  unfold reload. destruct (find_module E (cwd w) name); [|reflexivity].
  rewrite exec_body_spec. reflexivity.
Qed.

Lemma import_attempt_sys_modules import_name module_name pre w :
  sys_modules w ⊆ sys_modules (fst (import_attempt H E import_name module_name pre w)).
Proof.
  unfold import_attempt.
  pose proof (import_module_sys_modules import_name w) as H1.
  destruct (import_module H E import_name w) as [w1 [[]|e1]]; simpl in *; [|exact H1].
  destruct (bool_decide (import_name ∈ sys_modules w)); [|exact H1].
  pose proof (reload_sys_modules import_name w1) as H2.
  destruct (reload H E import_name w1) as [w2 [[]|e2]]; simpl in *; rewrite H2; exact H1.
Qed.

Lemma discover_one_sys_modules module_name w :
  sys_modules w ⊆ sys_modules (fst (discover_one H E module_name w)).
Proof.
  unfold discover_one.
  pose proof (import_attempt_sys_modules module_name module_name false
                (chdir (tools_dir H) w)) as H1.
  destruct (import_attempt H E module_name module_name false _) as [w1 [[]|e1]];
    simpl in *; [exact H1|].
  destruct (isinstance e1 ImportError).
  - pose proof (import_attempt_sys_modules ("Tools." ++ module_name) module_name true
                  (chdir (cwd w) w1)) as H2.
    destruct (import_attempt H E ("Tools." ++ module_name) module_name true _)
      as [w2 [[]|e2]]; simpl in *; [set_solver|].
    destruct (isinstance e2 Exception); simpl; set_solver.
  - destruct (isinstance e1 Exception); exact H1.
Qed.

Lemma discover_loop_sys_modules files w :
  sys_modules w ⊆ sys_modules (fst (discover_loop H E files w)).
Proof.
  revert w. induction files as [|f rest IH]; intros w; simpl; [reflexivity|].
  pose proof (discover_one_sys_modules (module_name_of f) w) as H1.
  destruct (discover_one H E (module_name_of f) w) as [w' [[]|e]]; simpl in *.
  - specialize (IH w'). set_solver.
  - exact H1.
Qed.

(** [discover_tools] never drops a module from [sys.modules] that was
    there when it was called; a module that fails at import is removed
    only if this call had added it. *)
Theorem discover_tools_keeps_imported_modules w module_name :
  module_name ∈ sys_modules w ->
  module_name ∈ sys_modules (fst (discover_tools H E w)).
Proof.
  intros Hin. unfold discover_tools.
  pose proof (discover_loop_sys_modules (discovered_files E)
                (print (MFound (discovered_files E))
                   (print (MScanning (tools_dir H)) (set_registry empty_registry w))))
    as Hs.
  destruct (discover_loop H E _ _) as [w3 [[]|e]]; simpl in *; set_solver.
Qed.

(** What a discovery registers and returns depends on the files and the
    working directory only, not on which modules are already imported. *)
Lemma import_attempt_same import_name module_name pre w w' :
  registry w = registry w' -> cwd w = cwd w' ->
  let out := import_attempt H E import_name module_name pre w in
  let out' := import_attempt H E import_name module_name pre w' in
  registry (fst out) = registry (fst out') /\ cwd (fst out) = cwd (fst out') /\
  snd out = snd out'.
Proof.
  intros Hr Hc. unfold import_attempt, import_module, reload.
  destruct (bool_decide (import_name ∈ sys_modules w)),
           (bool_decide (import_name ∈ sys_modules w')); simpl;
    rewrite <- ?Hc; destruct (find_module E (cwd w) import_name) as [body|];
    simpl; rewrite ?exec_body_spec; simpl; rewrite <- ?Hc;
    try destruct (find_module E (cwd w) import_name) as [body'|];
    try destruct (first_raise body); simpl; rewrite ?Hr; auto.
Qed.

Lemma discover_one_same module_name w w' :
  registry w = registry w' -> cwd w = cwd w' ->
  let out := discover_one H E module_name w in
  let out' := discover_one H E module_name w' in
  registry (fst out) = registry (fst out') /\ cwd (fst out) = cwd (fst out') /\
  snd out = snd out'.
Proof.
  intros Hr Hc. unfold discover_one.
  pose proof (import_attempt_same module_name module_name false
                (chdir (tools_dir H) w) (chdir (tools_dir H) w') Hr eq_refl)
    as (Hr1 & Hc1 & Hs1). simpl in Hr1, Hc1, Hs1.
  destruct (import_attempt H E module_name module_name false (chdir (tools_dir H) w))
    as [w1 r1];
  destruct (import_attempt H E module_name module_name false (chdir (tools_dir H) w'))
    as [w1' r1']. simpl in *. subst r1'.
  destruct r1 as [[]|e1]; [simpl; auto|].
  destruct (isinstance e1 ImportError).
  - pose proof (import_attempt_same ("Tools." ++ module_name) module_name true
                  (chdir (cwd w) w1) (chdir (cwd w') w1') Hr1 Hc)
      as (Hr2 & Hc2 & Hs2). simpl in Hr2, Hc2, Hs2.
    destruct (import_attempt H E ("Tools." ++ module_name) module_name true
                (chdir (cwd w) w1)) as [w2 r2];
    destruct (import_attempt H E ("Tools." ++ module_name) module_name true
                (chdir (cwd w') w1')) as [w2' r2']. simpl in *. subst r2'.
    destruct r2 as [[]|e2]; [simpl; auto|].
    destruct (isinstance e2 Exception); simpl; auto.
  - destruct (isinstance e1 Exception); simpl; auto.
Qed.

Lemma discover_loop_same files w w' :
  registry w = registry w' -> cwd w = cwd w' ->
  registry (fst (discover_loop H E files w)) = registry (fst (discover_loop H E files w')) /\
  snd (discover_loop H E files w) = snd (discover_loop H E files w').
Proof.
  revert w w'. induction files as [|f rest IH]; intros w w' Hr Hc; simpl; [auto|].
  pose proof (discover_one_same (module_name_of f) w w' Hr Hc) as (Hr1 & Hc1 & Hs1).
  simpl in Hr1, Hc1, Hs1.
  destruct (discover_one H E (module_name_of f) w) as [w1 r1];
  destruct (discover_one H E (module_name_of f) w') as [w1' r1']. simpl in *. subst r1'.
  destruct r1 as [[]|e]; [apply IH; assumption|auto].
Qed.

Lemma discover_tools_same w w' :
  cwd w = cwd w' ->
  registry (fst (discover_tools H E w)) = registry (fst (discover_tools H E w')) /\
  snd (discover_tools H E w) = snd (discover_tools H E w').
Proof.
  intros Hc. unfold discover_tools.
  pose proof (discover_loop_same (discovered_files E)
                (print (MFound (discovered_files E))
                   (print (MScanning (tools_dir H)) (set_registry empty_registry w)))
                (print (MFound (discovered_files E))
                   (print (MScanning (tools_dir H)) (set_registry empty_registry w')))
                eq_refl Hc) as (Hr & Hs).
  destruct (discover_loop H E _ (print _ (print _ (set_registry empty_registry w))))
    as [w3 r3];
  destruct (discover_loop H E _ (print _ (print _ (set_registry empty_registry w'))))
    as [w3' r3']. simpl in *. subst r3'.
  destruct r3 as [[]|e]; simpl; [rewrite Hr|]; auto.
Qed.

(** Running [discover_tools] again over the same files gives the same
    registries and the same returned dict: a second discovery reloads
    instead of importing, and the registrations come out the same. *)
Theorem discover_tools_twice_same_registry w :
  let first := discover_tools H E w in
  let second := discover_tools H E (fst first) in
  registry (fst second) = registry (fst first) /\ snd second = snd first.
Proof.
  cbv zeta.
  destruct (discover_tools_same (fst (discover_tools H E w)) w
              (discover_tools_restores_cwd_aux w)) as (Hr & Hs).
  split; assumption.
Qed.

Lemma replay_wrappers_only stmts r :
  wrappers_only H (_bridge_handlers r) ->
  wrappers_only H (_bridge_handlers (replay H stmts r)).
Proof.
  revert r. induction stmts as [|s rest IH]; intros r Hw; [exact Hw|].
  simpl. apply IH. destruct s; simpl; try exact Hw.
  intros ep h. destruct (decide (ep = endpoint)) as [->|Hne].
  - rewrite lookup_insert_eq. intros [= <-]. eexists. reflexivity.
  - rewrite lookup_insert_ne by congruence. apply Hw.
Qed.

(** After a discovery every entry of [_bridge_handlers] is the wrapper
    that [bridge_handler] built for the endpoint it is stored under: no
    undecorated function and no wrapper for another endpoint gets in. *)
Theorem discover_tools_registers_wrappers_only w :
  wrappers_only H (_bridge_handlers (registry (fst (discover_tools H E w)))).
Proof.
  destruct (discover_tools_from_empty H E w) as (new & _ & ->).
  apply replay_wrappers_only. intros ep h. simpl. rewrite lookup_empty. discriminate.
Qed.

(** main.py: [register_tools] hands the custom tools, then the Rhino
    tools, then the Grasshopper tools to [mcp.tool], one call per
    registered definition, and returns the three counts; a second run
    makes the same calls again. *)
Theorem register_tools_registers_all w w' calls c r g :
  register_tools H E w = (w', calls, Return (c, r, g)) ->
  calls = (List.map to_dict (_custom_tools (registry w')) ++
           List.map to_dict (_rhino_tools (registry w')) ++
           List.map to_dict (_gh_tools (registry w')))%list /\
  c = List.length (_custom_tools (registry w')) /\
  r = List.length (_rhino_tools (registry w')) /\
  g = List.length (_gh_tools (registry w')) /\
  List.length calls = (c + r + g)%nat /\
  snd (fst (register_tools H E w')) = calls /\
  snd (register_tools H E w') = Return (c, r, g).
Proof.
  unfold register_tools.
  destruct (discover_tools_same (fst (discover_tools H E w)) w
              (discover_tools_restores_cwd_aux w)) as (Hr & Hs).
  destruct (discover_tools H E w) as [w1 [d|e]] eqn:Hd; [|discriminate].
  simpl in Hr, Hs.
  intros [= <- <- <- <- <-].
  unfold get_custom_tools, get_rhino_tools, get_gh_tools.
  destruct (discover_tools H E w1) as [w2 [d2|e2]]; [|discriminate].
  simpl in Hr. rewrite Hr. rewrite !length_app, !length_map.
  repeat split; lia.
Qed.

End DiscoveryExtras.

Lemma register_tools_registers_all_witness :
  List.length (snd (fst (register_tools host tools_env fresh_world))) = (0 + 1 + 1)%nat.
Proof.
  destruct (register_tools host tools_env fresh_world) as [[w' calls] res] eqn:Hreg.
  assert (Hres : res = Return (0, 1, 1)%nat).
  { revert Hreg. vm_compute. intros [= _ _ <-]. reflexivity. }
  subst res.
  exact (proj1 (proj2 (proj2 (proj2 (proj2
           (register_tools_registers_all host tools_env fresh_world w' calls 0 1 1 Hreg)))))).
Defined.

Lemma discover_tools_keeps_imported_modules_witness :
  "json" ∈ sys_modules
             (fst (discover_tools host tools_env
                     (mkWorld empty_registry {["json"]} "C:\aag25_mcp" [] []))).
Proof.
  apply (discover_tools_keeps_imported_modules host tools_env
           (mkWorld empty_registry {["json"]} "C:\aag25_mcp" [] []) "json").
  simpl. set_solver.
Defined.

(** ** More of rhino_bridge_server.py *)

Section ServerExtras.

Variable H : Host.
Variable E : ImportEnv.
Variable L : Libs.

Lemma do_POST_read_error s s1 req e :
  ensure_initialized H E s = (s1, Return tt) ->
  read_request_data L req = Raise e ->
  do_POST H E L s req
  = (s1, fst (outer_except (urlparse_path L (path req)) PNone [] e),
         snd (outer_except (urlparse_path L (path req)) PNone [] e)).
Proof.
  intros Hi Hr. unfold do_POST. rewrite Hi, Hr.
  destruct (outer_except _ _ _ _); reflexivity.
Qed.

(** A request body of positive length that is not JSON is answered with
    status 400 and "error_type": "JSONDecodeError"; no handler is
    called, whether the path is registered or not. *)
Theorem do_POST_invalid_json_is_400 s s1 req n e :
  ensure_initialized H E s = (s1, Return tt) ->
  content_length_value L req = Return n ->
  0 < n ->
  json_loads_utf8 L (str_prefix (Z.to_nat n) (rfile req)) = Raise e ->
  isinstance e BridgeServer.JSONDecodeError = true ->
  exists body,
    do_POST H E L s req = (s1, [SendHeaders 400; WriteBody (PDict body)], Return tt) /\
    dict_get "success" body = Some (PBool false) /\
    dict_get "error" body = Some (PStr "Invalid JSON in request body") /\
    dict_get "error_type" body = Some (PStr "JSONDecodeError") /\
    dict_get "error_details" body = Some (PStr (exc_msg e)) /\
    dict_get "endpoint" body = Some (PStr (urlparse_path L (path req))).
Proof.
  intros Hi Hn Hpos He Hjson.
  assert (Hr : read_request_data L req = Raise e).
  { unfold read_request_data. rewrite Hn.
    destruct (Z.ltb_spec 0 n); [|lia]. rewrite He. reflexivity. }
  rewrite (do_POST_read_error s s1 req e Hi Hr).
  unfold outer_except.
  rewrite Hjson. eexists. split; [reflexivity|]. repeat split; reflexivity.
Qed.

(** Any other [Exception] while the body is read, such as a
    Content-Length that is not a number or bytes that are not UTF-8, is
    answered with status 500, the exception's class name as "error_type"
    and null "request_data"; no handler is called. *)
Theorem do_POST_read_failure_is_500 s s1 req e :
  ensure_initialized H E s = (s1, Return tt) ->
  read_request_data L req = Raise e ->
  isinstance e BridgeServer.JSONDecodeError = false ->
  isinstance e Exception = true ->
  exists body,
    do_POST H E L s req = (s1, [SendHeaders 500; WriteBody (PDict body)], Return tt) /\
    dict_get "success" body = Some (PBool false) /\
    dict_get "error" body = Some (PStr ("Internal server error: " ++ exc_msg e)) /\
    dict_get "error_type" body = Some (PStr (exc_name e)) /\
    dict_get "request_data" body = Some PNone.
Proof.
  intros Hi Hr Hnj Hexc. rewrite (do_POST_read_error s s1 req e Hi Hr).
  unfold outer_except.
  rewrite Hnj, Hexc. eexists. split; [reflexivity|]. repeat split; reflexivity.
Qed.

(** A handler stored without the decorator's wrapper that raises an
    [Exception] is answered with status 500 and a "Handler error: ..."
    body that names the exception's class. *)
Theorem do_POST_raw_handler_exception_is_500 s s1 req data h e :
  ensure_initialized H E s = (s1, Return tt) ->
  read_request_data L req = Return data ->
  _dynamic_handlers s1 !! urlparse_path L (path req) = Some h ->
  fn_call h data = Raise e ->
  isinstance e Exception = true ->
  exists body,
    do_POST H E L s req
    = (s1, [Invoke (urlparse_path L (path req)) data; SendHeaders 500;
            WriteBody (PDict body)], Return tt) /\
    dict_get "success" body = Some (PBool false) /\
    dict_get "error" body = Some (PStr ("Handler error: " ++ exc_msg e)) /\
    dict_get "error_type" body = Some (PStr (exc_name e)) /\
    dict_get "request_data" body = Some data.
Proof.
  intros Hi Hr Hh He Hexc. rewrite (do_POST_dispatch H E L s s1 req data Hi Hr).
  unfold dispatch. rewrite Hh, He. unfold inner_except. rewrite Hexc.
  rewrite (send_serializable _ _
             (handler_error_serializable _ data e
                (read_request_data_serializable _ _ _ Hr))).
  eexists. split; [reflexivity|]. repeat split; reflexivity.
Qed.

(** A handler that raises something that is not an [Exception] gets no
    reply at all: [do_POST] raises it after the call and nothing is
    sent. *)
Theorem do_POST_propagates_non_Exception s s1 req data h e :
  ensure_initialized H E s = (s1, Return tt) ->
  read_request_data L req = Return data ->
  _dynamic_handlers s1 !! urlparse_path L (path req) = Some h ->
  fn_call h data = Raise e ->
  isinstance e Exception = false ->
  isinstance e BridgeServer.JSONDecodeError = false ->
  do_POST H E L s req = (s1, [Invoke (urlparse_path L (path req)) data], Raise e).
Proof.
  intros Hi Hr Hh He Hexc Hnj. rewrite (do_POST_dispatch H E L s s1 req data Hi Hr).
  unfold dispatch. rewrite Hh, He. unfold inner_except, outer_except.
  rewrite Hexc, Hnj. reflexivity.
Qed.

Lemma outer_except_no_invoke ep data e :
  List.filter is_invoke (fst (outer_except ep data [] e)) = [].
Proof.
  destruct (outer_except_events ep data [] e) as (more & -> & Hno). simpl.
  induction more as [|ev more IH]; [reflexivity|]. simpl in *.
  apply andb_true_iff in Hno as [Hev Hno]. destruct (is_invoke ev); [discriminate|].
  apply IH, Hno.
Qed.

Lemma filter_no_invoke evs :
  forallb (fun ev => negb (is_invoke ev)) evs = true -> List.filter is_invoke evs = [].
Proof.
  induction evs as [|ev evs IH]; [reflexivity|]. simpl. intros Hno.
  apply andb_true_iff in Hno as [Hev Hno]. destruct (is_invoke ev); [discriminate|].
  apply IH, Hno.
Qed.

(** Whatever the request and the state of the server, [do_POST] calls at
    most one handler, and only the one registered under the path of the
    request, with the data it read from the body. *)
Theorem do_POST_calls_at_most_one_handler s req :
  let '(s', evs, r) := do_POST H E L s req in
  (List.length (List.filter is_invoke evs) <= 1)%nat /\
  forall ep data, In (Invoke ep data) evs ->
    ep = urlparse_path L (path req) /\
    is_Some (_dynamic_handlers s' !! ep) /\
    read_request_data L req = Return data.
Proof.
  unfold do_POST.
  destruct (ensure_initialized H E s) as [s1 [[]|e0]].
  2:{ pose proof (outer_except_no_invoke "unknown" PNone e0) as Hno.
      destruct (outer_except "unknown" PNone [] e0) as [ev r]. simpl in Hno.
      split; [rewrite Hno; simpl; lia|].
      intros ep data Hin.
      assert (Hf : In (Invoke ep data) (List.filter is_invoke ev))
        by (apply filter_In; split; [exact Hin|reflexivity]).
      rewrite Hno in Hf. destruct Hf. }
  destruct (read_request_data L req) as [data|e1] eqn:Hr.
  2:{ pose proof (outer_except_no_invoke (urlparse_path L (path req)) PNone e1) as Hno.
      destruct (outer_except _ PNone [] e1) as [ev r]. simpl in Hno.
      split; [rewrite Hno; simpl; lia|].
      intros ep data Hin.
      assert (Hf : In (Invoke ep data) (List.filter is_invoke ev))
        by (apply filter_In; split; [exact Hin|reflexivity]).
      rewrite Hno in Hf. destruct Hf. }
  destruct (_dynamic_handlers s1 !! urlparse_path L (path req)) as [h|] eqn:Hh.
  - destruct (dispatch_invokes_once _ _ data h Hh) as (rest & Hev & Hno).
    destruct (dispatch _ _ _) as [ev r]. simpl in Hev. subst ev.
    simpl. rewrite (filter_no_invoke _ Hno). split; [simpl; lia|].
    intros ep d [Heq|Hin].
    + injection Heq as <- <-. rewrite Hh. repeat split. eexists; reflexivity.
    + assert (Hf : In (Invoke ep d) (List.filter is_invoke rest))
        by (apply filter_In; split; [exact Hin|reflexivity]).
      rewrite (filter_no_invoke _ Hno) in Hf. destruct Hf.
  - unfold dispatch. rewrite Hh.
    rewrite (send_serializable _ _ (not_found_serializable _ _)).
    split; [simpl; lia|]. intros ep d [Hc|[Hc|[]]]; discriminate.
Qed.

(** Where the handler system could not be imported
    ([DYNAMIC_HANDLERS_AVAILABLE] is false) and no handler was put in the
    table, nothing is ever discovered: every POST with a readable body is
    answered 404 with an empty list of available endpoints. *)
Theorem do_POST_without_handler_system s req data :
  DYNAMIC_HANDLERS_AVAILABLE s = false ->
  _dynamic_handlers s = ∅ ->
  read_request_data L req = Return data ->
  exists body,
    do_POST H E L s req = (s, [SendHeaders 404; WriteBody (PDict body)], Return tt) /\
    dict_get "error_type" body = Some (PStr "EndpointNotFound") /\
    dict_get "available_endpoints" body = Some (PList []).
Proof.
  intros Hav Hempty Hr.
  assert (Hi : ensure_initialized H E s = (s, Return tt)).
  { unfold ensure_initialized, initialize_dynamic_handlers. rewrite Hav.
    destruct (_handlers_initialized s); reflexivity. }
  rewrite (do_POST_dispatch H E L s s req data Hi Hr).
  unfold dispatch. rewrite Hempty, lookup_empty.
  rewrite (send_serializable _ _ (not_found_serializable _ _)).
  eexists. split; [reflexivity|]. split; [reflexivity|].
  simpl. unfold sorted_endpoints. rewrite map_to_list_empty. reflexivity.
Qed.

(** Discovery runs once in the life of a server: a discovery that
    returns sets the flag and puts every registered handler in the table
    (over an older entry for the same endpoint), and once the flag is set
    later requests leave the table and the interpreter state alone,
    whatever is on disk by then. *)
Theorem initialization_happens_once s :
  (forall w d,
     _handlers_initialized s = false -> DYNAMIC_HANDLERS_AVAILABLE s = true ->
     discover_tools H E (world s) = (w, Return d) ->
     exists s1, ensure_initialized H E s = (s1, Return tt) /\
       _handlers_initialized s1 = true /\ world s1 = w /\
       (forall ep h, _bridge_handlers (registry w) !! ep = Some h ->
                     _dynamic_handlers s1 !! ep = Some h) /\
       (forall ep, _bridge_handlers (registry w) !! ep = None ->
                   _dynamic_handlers s1 !! ep = _dynamic_handlers s !! ep)) /\
  (_handlers_initialized s = true ->
   forall E', ensure_initialized H E' s = (s, Return tt) /\
              initialize_dynamic_handlers H E' s = (s, Return tt)).
Proof.
  split.
  - intros w d Hinit Hav Hd. unfold ensure_initialized, initialize_dynamic_handlers.
    rewrite Hinit, Hav, Hd. simpl. eexists. split; [reflexivity|]. simpl.
    unfold get_bridge_handlers. repeat split.
    + intros ep h Hh. apply lookup_union_Some_raw. left. exact Hh.
    + intros ep Hn. apply option_eq. intros h. rewrite lookup_union_Some_raw.
      rewrite Hn. split; [intros [Hc|[_ Hold]]; [discriminate|exact Hold]|].
      intros Hold. right. split; [reflexivity|exact Hold].
  - intros Hinit E'. unfold ensure_initialized, initialize_dynamic_handlers.
    rewrite Hinit. split; reflexivity.
Qed.

Lemma sorted_endpoints_length (handlers : gmap string PyFunc) :
  List.length (sorted_endpoints handlers) = size handlers.
Proof.
  unfold sorted_endpoints.
  rewrite (Permutation_length (merge_sort_Permutation _ _)).
  rewrite length_map. apply length_map_to_list.
Qed.

(** The answer to GET /info lists the two fixed endpoints and one POST
    endpoint per registered handler, in sorted order, and its
    "dynamic_handlers" is their number. *)
Theorem info_response_lists_every_handler s :
  exists eps,
    get_item "endpoints" (info_response s)
    = Some (PList ([ endpoint_entry "/status" "GET" "Server status";
                     endpoint_entry "/info" "GET" "Server information" ] ++
                   List.map (fun ep => endpoint_entry ep "POST"
                                         ("Dynamic handler for " ++ ep)) eps)) /\
    Sorted String.le eps /\
    (forall ep, In ep eps <-> is_Some (_dynamic_handlers s !! ep)) /\
    List.length eps = size (_dynamic_handlers s) /\
    get_item "dynamic_handlers" (info_response s)
    = Some (PInt (Z.of_nat (List.length eps))).
Proof.
  exists (sorted_endpoints (_dynamic_handlers s)).
  destruct (sorted_endpoints_spec (_dynamic_handlers s)) as (Hsorted & Hperm).
  split; [reflexivity|]. split; [exact Hsorted|]. split; [|split].
  - intros ep. rewrite <- list_elem_of_In, Hperm, list_elem_of_fmap. split.
    + intros ([k h] & -> & Hin). apply elem_of_map_to_list in Hin.
      simpl. eexists; exact Hin.
    + intros (h & Hh). exists (ep, h). split; [reflexivity|].
      apply elem_of_map_to_list, Hh.
  - apply sorted_endpoints_length.
  - simpl. rewrite sorted_endpoints_length. reflexivity.
Qed.

Lemma ensure_initialized_wrappers_only s :
  wrappers_only H (_dynamic_handlers s) ->
  wrappers_only H (_dynamic_handlers (fst (ensure_initialized H E s))).
Proof.
  intros Hw. unfold ensure_initialized, initialize_dynamic_handlers.
  destruct (_handlers_initialized s); [exact Hw|]. simpl.
  destruct (DYNAMIC_HANDLERS_AVAILABLE s); [|exact Hw]. simpl.
  pose proof (discover_tools_from_empty H E (world s)) as (new & _ & Hreg).
  destruct (discover_tools H E (world s)) as [w [d|e]]; simpl in *.
  - intros ep h Hh. apply lookup_union_Some_raw in Hh as [Hh|[_ Hh]]; [|eapply Hw, Hh].
    unfold get_bridge_handlers in Hh. rewrite Hreg in Hh. revert Hh.
    apply replay_wrappers_only. intros ep' h'. simpl. rewrite lookup_empty. discriminate.
  - destruct (isinstance e Exception); exact Hw.
Qed.

(** A table that holds only [bridge_handler] wrappers keeps holding only
    such wrappers through every GET and POST request, so a server started
    with an empty table never dispatches to an undecorated function. *)
Theorem server_table_holds_wrappers_only s req :
  wrappers_only H (_dynamic_handlers s) ->
  wrappers_only H (_dynamic_handlers (fst (fst (do_POST H E L s req)))) /\
  wrappers_only H (_dynamic_handlers (fst (fst (do_GET H E s req)))).
Proof.
  intros Hw. pose proof (ensure_initialized_wrappers_only s Hw) as Hw1. split.
  - unfold do_POST. destruct (ensure_initialized H E s) as [s1 [[]|e]]; simpl in *.
    + destruct (read_request_data L req).
      * destruct (dispatch _ _ _). exact Hw1.
      * destruct (outer_except _ _ _ _). exact Hw1.
    + destruct (outer_except _ _ _ _). exact Hw1.
  - unfold do_GET. destruct (String.eqb (path req) "/status").
    { destruct (send_json_response _ _). exact Hw. }
    destruct (String.eqb (path req) "/info").
    + destruct (ensure_initialized H E s) as [s1 [[]|e]]; simpl in *; [|exact Hw1].
      destruct (send_json_response _ _). exact Hw1.
    + destruct (send_error_response _ _). exact Hw.
Qed.

End ServerExtras.

Lemma do_POST_invalid_json_is_400_witness :
  exists body,
    do_POST host tools_env five_libs draw_line_server
            (mkRequest "/draw_line" (Some "5") "hello")
    = (draw_line_server, [SendHeaders 400; WriteBody (PDict body)], Return tt) /\
    dict_get "success" body = Some (PBool false) /\
    dict_get "error" body = Some (PStr "Invalid JSON in request body") /\
    dict_get "error_type" body = Some (PStr "JSONDecodeError") /\
    dict_get "error_details" body = Some (PStr (exc_msg bad_json)) /\
    dict_get "endpoint" body = Some (PStr "/draw_line").
Proof.
  apply (do_POST_invalid_json_is_400 host tools_env five_libs draw_line_server
           draw_line_server (mkRequest "/draw_line" (Some "5") "hello") 5 bad_json);
    reflexivity.
Defined.

Lemma do_POST_read_failure_is_500_witness :
  exists body,
    do_POST host tools_env nan_libs draw_line_server
            (mkRequest "/draw_line" (Some "abc") "{}")
    = (draw_line_server, [SendHeaders 500; WriteBody (PDict body)], Return tt) /\
    dict_get "success" body = Some (PBool false) /\
    dict_get "error" body
    = Some (PStr "Internal server error: invalid literal for int() with base 10") /\
    dict_get "error_type" body = Some (PStr "ValueError") /\
    dict_get "request_data" body = Some PNone.
Proof.
  apply (do_POST_read_failure_is_500 host tools_env nan_libs draw_line_server
           draw_line_server (mkRequest "/draw_line" (Some "abc") "{}")
           (ValueError_ "invalid literal for int() with base 10"));
    reflexivity.
Defined.

Lemma do_POST_raw_handler_exception_is_500_witness :
  exists body,
    do_POST host tools_env plain_libs raw_server (post "/draw_line")
    = (raw_server, [Invoke "/draw_line" (PDict []); SendHeaders 500;
                    WriteBody (PDict body)], Return tt) /\
    dict_get "success" body = Some (PBool false) /\
    dict_get "error" body
    = Some (PStr "Handler error: could not convert string to float") /\
    dict_get "error_type" body = Some (PStr "ValueError") /\
    dict_get "request_data" body = Some (PDict []).
Proof.
  apply (do_POST_raw_handler_exception_is_500 host tools_env plain_libs raw_server
           raw_server (post "/draw_line") (PDict []) failing_handler
           (ValueError_ "could not convert string to float"));
    first [reflexivity | apply lookup_singleton_eq].
Defined.

Lemma do_POST_propagates_non_Exception_witness :
  do_POST host tools_env plain_libs raw_interrupted_server (post "/draw_line")
  = (raw_interrupted_server, [Invoke "/draw_line" (PDict [])], Raise KeyboardInterrupt_).
Proof.
  apply (do_POST_propagates_non_Exception host tools_env plain_libs
           raw_interrupted_server raw_interrupted_server (post "/draw_line") (PDict [])
           interrupted_handler KeyboardInterrupt_);
    first [reflexivity | apply lookup_singleton_eq].
Defined.

Lemma do_POST_calls_at_most_one_handler_witness :
  "/draw_line" = urlparse_path plain_libs (path (post "/draw_line")) /\
  is_Some (_dynamic_handlers
             (fst (fst (do_POST host tools_env plain_libs raw_server (post "/draw_line"))))
             !! "/draw_line") /\
  read_request_data plain_libs (post "/draw_line") = Return (PDict []).
Proof.
  pose proof (do_POST_calls_at_most_one_handler host tools_env plain_libs raw_server
                (post "/draw_line")) as Hw.
  assert (Hin : In (Invoke "/draw_line" (PDict []))
                   (snd (fst (do_POST host tools_env plain_libs raw_server
                                (post "/draw_line")))))
    by (vm_compute; left; reflexivity).
  destruct (do_POST host tools_env plain_libs raw_server (post "/draw_line"))
    as [[s' evs] r].
  destruct Hw as (_ & Hw). exact (Hw "/draw_line" (PDict []) Hin).
Defined.

Lemma do_POST_without_handler_system_witness :
  exists body,
    do_POST host tools_env plain_libs (cold_server false) (post "/draw_line")
    = (cold_server false, [SendHeaders 404; WriteBody (PDict body)], Return tt) /\
    dict_get "error_type" body = Some (PStr "EndpointNotFound") /\
    dict_get "available_endpoints" body = Some (PList []).
Proof.
  apply (do_POST_without_handler_system host tools_env plain_libs (cold_server false)
           (post "/draw_line") (PDict [])); reflexivity.
Defined.

Lemma initialization_happens_once_witness :
  ensure_initialized host exiting_env draw_line_server = (draw_line_server, Return tt) /\
  initialize_dynamic_handlers host exiting_env draw_line_server
  = (draw_line_server, Return tt).
Proof.
  exact (proj2 (initialization_happens_once host tools_env draw_line_server)
           eq_refl exiting_env).
Defined.

Lemma server_table_holds_wrappers_only_witness :
  wrappers_only host
    (_dynamic_handlers
       (fst (fst (do_POST host tools_env plain_libs (cold_server true)
                    (post "/info"))))) /\
  wrappers_only host
    (_dynamic_handlers
       (fst (fst (do_GET host tools_env (cold_server true) (post "/info"))))).
Proof.
  apply (server_table_holds_wrappers_only host tools_env plain_libs (cold_server true)
           (post "/info")).
  intros ep h. simpl. rewrite lookup_empty. discriminate.
Defined.

(** ** More of bridge_client.py and its caller in main.py *)

Section ClientExtras.

Variable R : Requests.
Variable BRIDGE_URL : string.

(** On an HTTP error status the reply does not carry the status code or
    the body the server sent: a response with a 4xx or 5xx code is falsy,
    so the code reads "unknown" and the body "No response". *)
Theorem http_error_reply_hides_status endpoint data r :
  sent R (BRIDGE_URL ++ endpoint) data = Return r ->
  is_error_status r = true ->
  exists d,
    snd (call_bridge_api R BRIDGE_URL endpoint data) = Return (PDict d) /\
    dict_get "error_type" d = Some (PStr "HTTPError") /\
    dict_get "error" d = Some (PStr "HTTP unknown error from bridge server") /\
    dict_get "status_code" d = Some (PStr "unknown") /\
    dict_get "response_body" d = Some (PStr "No response") /\
    dict_get "request_data" d = Some (default PNone data).
Proof.
  intros Hs He. rewrite call_bridge_api_outcome, Hs, He.
  unfold handle_error, truthy. rewrite He. simpl.
  eexists. split; [reflexivity|]. repeat split; reflexivity.
Qed.

(** The clauses are tried in the order they are written: an exception
    that is a connection error is reported as "ConnectionError", with the
    bridge URL and without the request data, even when it is a timeout as
    well. *)
Theorem connection_error_takes_precedence endpoint data e :
  sent R (BRIDGE_URL ++ endpoint) data = Raise e ->
  isinstance e ConnectionError = true ->
  exists d,
    snd (call_bridge_api R BRIDGE_URL endpoint data) = Return (PDict d) /\
    List.map fst d = ["success"; "error"; "error_type"; "endpoint"; "bridge_url"] /\
    dict_get "error_type" d = Some (PStr "ConnectionError") /\
    dict_get "bridge_url" d = Some (PStr BRIDGE_URL) /\
    dict_get "request_data" d = None.
Proof.
  intros Hs He. rewrite call_bridge_api_outcome, Hs. unfold handle_error. rewrite He.
  eexists. split; [reflexivity|]. repeat split; reflexivity.
Qed.

(** A body that does not parse and is signalled by an exception of the
    [requests] hierarchy is reported as "RequestException", not as
    "JSONDecodeError", and with the first 1000 characters of the body
    (null for an empty body). *)
Theorem requests_json_error_is_RequestException endpoint data r e :
  sent R (BRIDGE_URL ++ endpoint) data = Return r ->
  is_error_status r = false ->
  json r = Raise e ->
  isinstance e ConnectionError = false ->
  isinstance e Timeout = false ->
  isinstance e HTTPError = false ->
  isinstance e RequestException = true ->
  exists d,
    snd (call_bridge_api R BRIDGE_URL endpoint data) = Return (PDict d) /\
    dict_get "error_type" d = Some (PStr "RequestException") /\
    dict_get "error" d = Some (PStr ("Bridge API request failed: " ++ exc_msg e)) /\
    dict_get "response_body" d
    = Some (if String.eqb (text r) "" then PNone else PStr (str_prefix 1000 (text r))) /\
    dict_get "error_details" d = None.
Proof.
  intros Hs Hok Hj H1 H2 H3 H4. rewrite call_bridge_api_outcome, Hs, Hok, Hj.
  unfold handle_error, truthy. rewrite H1, H2, H3, H4, Hok.
  eexists. split; [reflexivity|]. repeat split; reflexivity.
Qed.

(** [call_bridge_api] does raise: an exception that is none of the five
    kinds it names, whether from the request or from reading the body,
    goes to the caller. *)
Theorem call_bridge_api_propagates_other endpoint data e :
  isinstance e ConnectionError = false ->
  isinstance e Timeout = false ->
  isinstance e HTTPError = false ->
  isinstance e RequestException = false ->
  isinstance e BridgeClient.JSONDecodeError = false ->
  (sent R (BRIDGE_URL ++ endpoint) data = Raise e \/
   exists r, sent R (BRIDGE_URL ++ endpoint) data = Return r /\
             is_error_status r = false /\ json r = Raise e) ->
  snd (call_bridge_api R BRIDGE_URL endpoint data) = Raise e.
Proof.
  intros H1 H2 H3 H4 H5 Hcase. rewrite call_bridge_api_outcome.
  destruct Hcase as [->|(r & -> & -> & ->)];
    unfold handle_error; rewrite H1, H2, H3, H4, H5; reflexivity.
Qed.

Lemma str_prefix_length n s : (String.length (str_prefix n s) <= n)%nat.
Proof.
  unfold str_prefix. revert s. induction n as [|n IH]; intros s.
  - destruct s; simpl; lia.
  - destruct s as [|a s]; simpl; [lia|]. specialize (IH s). lia.
Qed.

(** Whatever error reply [call_bridge_api] builds, the "response_body" in
    it is at most 1000 characters long. *)
Theorem response_body_at_most_1000 endpoint data response e d b :
  handle_error BRIDGE_URL endpoint data response e = Return (PDict d) ->
  dict_get "response_body" d = Some (PStr b) ->
  (String.length b <= 1000)%nat.
Proof.
  unfold handle_error.
  destruct (isinstance e ConnectionError); [intros [= <-]; discriminate|].
  destruct (isinstance e Timeout); [intros [= <-]; discriminate|].
  destruct (isinstance e HTTPError).
  { intros [= <-]. simpl. intros [= <-]. apply str_prefix_length. }
  destruct (isinstance e RequestException).
  { intros [= <-]. simpl.
    destruct (String.eqb _ ""); [discriminate|]. intros [= <-]. apply str_prefix_length. }
  destruct (isinstance e BridgeClient.JSONDecodeError); [|discriminate].
  intros [= <-]. simpl. intros [= <-]. apply str_prefix_length.
Qed.

Lemma handle_error_no_status endpoint data response e d :
  handle_error BRIDGE_URL endpoint data response e = Return (PDict d) ->
  dict_get "status" d = None.
Proof.
  unfold handle_error.
  repeat match goal with
         | |- context [if isinstance e ?C then _ else _] => destruct (isinstance e C)
         end; try discriminate; intros [= <-]; reflexivity.
Qed.

(** main.py: [check_bridge_connection] makes one GET to /status and
    answers true exactly when the reply is a dict whose "status" is
    "running"; a failed request that [call_bridge_api] turned into an
    error dict, and a JSON reply that is not a dict, both give false. *)
Theorem check_bridge_connection_spec :
  fst (check_bridge_connection R BRIDGE_URL) = [GET (BRIDGE_URL ++ "/status")] /\
  (snd (check_bridge_connection R BRIDGE_URL) = Return true <->
   exists d, snd (get_bridge_status R BRIDGE_URL) = Return (PDict d) /\
             dict_get "status" d = Some (PStr "running")) /\
  (forall e, requests_get R (BRIDGE_URL ++ "/status") = Raise e -> is_handled e ->
     snd (check_bridge_connection R BRIDGE_URL) = Return false) /\
  (forall r, requests_get R (BRIDGE_URL ++ "/status") = Return r ->
     is_error_status r = true ->
     snd (check_bridge_connection R BRIDGE_URL) = Return false) /\
  (forall v, snd (get_bridge_status R BRIDGE_URL) = Return v -> is_dict v = false ->
     snd (check_bridge_connection R BRIDGE_URL) = Return false).
Proof.
  unfold check_bridge_connection.
  pose proof (call_bridge_api_calls R BRIDGE_URL "/status" None) as Hcalls.
  pose proof (call_bridge_api_outcome R BRIDGE_URL "/status" None) as Hout.
  unfold get_bridge_status in *.
  destruct (call_bridge_api R BRIDGE_URL "/status" None) as [calls status].
  simpl in Hcalls, Hout. subst calls. split; [|split; [|split; [|split]]].
  - destruct status as [st|e]; [destruct st|]; simpl;
      try reflexivity; destruct (isinstance _ Exception); reflexivity.
  - split.
    + destruct status as [st|e]; [destruct st|]; simpl;
        try discriminate; try (destruct (isinstance _ Exception); discriminate).
      unfold is_running_str. destruct (dict_get "status" d) as [[]|] eqn:Hd;
        try discriminate.
      destruct (String.eqb_spec s "running") as [->|]; [|discriminate].
      intros _. exists d. split; [reflexivity|exact Hd].
    + intros (d & Hs & Hd). simpl in Hs. rewrite Hs. cbn -[dict_get].
      rewrite Hd. reflexivity.
  - intros e He Hh. simpl in Hout. rewrite He in Hout.
    destruct (handle_error_replies BRIDGE_URL "/status" None None e Hh)
      as (d & msg & kind & C & Hd & _).
    rewrite Hd in Hout. subst status. cbn -[dict_get].
    rewrite (handle_error_no_status _ _ _ _ _ Hd). reflexivity.
  - intros r Hr He. simpl in Hout. rewrite Hr, He in Hout. subst status.
    unfold handle_error, truthy. rewrite He. reflexivity.
  - intros v Hv Hnd. simpl in Hv. rewrite Hv. destruct v; try discriminate; reflexivity.
Qed.

End ClientExtras.

Lemma http_error_reply_hides_status_witness :
  exists d,
    snd (call_bridge_api online "http://localhost:8080" "/info" None) = Return (PDict d) /\
    dict_get "error_type" d = Some (PStr "HTTPError") /\
    dict_get "error" d = Some (PStr "HTTP unknown error from bridge server") /\
    dict_get "status_code" d = Some (PStr "unknown") /\
    dict_get "response_body" d = Some (PStr "No response") /\
    dict_get "request_data" d = Some PNone.
Proof.
  apply (http_error_reply_hides_status online "http://localhost:8080" "/info" None
           not_found_page); reflexivity.
Defined.

Lemma connection_error_takes_precedence_witness :
  isinstance requests_ConnectTimeout Timeout = true /\
  exists d,
    snd (call_bridge_api timing_out "http://localhost:8080" "/draw_line" (Some (PDict [])))
    = Return (PDict d) /\
    List.map fst d = ["success"; "error"; "error_type"; "endpoint"; "bridge_url"] /\
    dict_get "error_type" d = Some (PStr "ConnectionError") /\
    dict_get "bridge_url" d = Some (PStr "http://localhost:8080") /\
    dict_get "request_data" d = None.
Proof.
  split; [reflexivity|].
  apply (connection_error_takes_precedence timing_out "http://localhost:8080"
           "/draw_line" (Some (PDict [])) requests_ConnectTimeout); reflexivity.
Defined.

Lemma requests_json_error_is_RequestException_witness :
  isinstance requests_JSONDecodeError BridgeClient.JSONDecodeError = true /\
  exists d,
    snd (call_bridge_api behind_proxy "http://localhost:8080" "/draw_line"
           (Some (PDict [])))
    = Return (PDict d) /\
    dict_get "error_type" d = Some (PStr "RequestException") /\
    dict_get "error" d
    = Some (PStr ("Bridge API request failed: " ++ exc_msg requests_JSONDecodeError)) /\
    dict_get "response_body" d
    = Some (if String.eqb (text html_page) "" then PNone
            else PStr (str_prefix 1000 (text html_page))) /\
    dict_get "error_details" d = None.
Proof.
  split; [reflexivity|].
  apply (requests_json_error_is_RequestException behind_proxy "http://localhost:8080"
           "/draw_line" (Some (PDict [])) html_page requests_JSONDecodeError);
    reflexivity.
Defined.

Lemma call_bridge_api_propagates_other_witness :
  snd (call_bridge_api (failing_with (TypeError_ "Object of type set is not JSON serializable"))
         "http://localhost:8080" "/draw_line" (Some (PDict [("points", PObj "set")])))
  = Raise (TypeError_ "Object of type set is not JSON serializable").
Proof.
  apply (call_bridge_api_propagates_other
           (failing_with (TypeError_ "Object of type set is not JSON serializable"))
           "http://localhost:8080" "/draw_line" (Some (PDict [("points", PObj "set")]))
           (TypeError_ "Object of type set is not JSON serializable"));
    try reflexivity.
  left. reflexivity.
Defined.

Lemma response_body_at_most_1000_witness :
  (String.length "<html>proxy</html>" <= 1000)%nat.
Proof.
  eapply (response_body_at_most_1000 "http://localhost:8080" "/draw_line" None
            (Some html_page) requests_JSONDecodeError); reflexivity.
Defined.

Lemma check_bridge_connection_spec_witness :
  snd (check_bridge_connection running "http://localhost:8080") = Return true.
Proof.
  apply (proj1 (proj2 (check_bridge_connection_spec running "http://localhost:8080"))).
  exists [("status", PStr "running")]. split; reflexivity.
Defined.

(** ** rhino_tools.py: [filter_debug_response] *)

Section FilterDebug.

Lemma dict_get_not_key k (d : list (string * PyVal)) :
  ~ In k (List.map fst d) -> dict_get k d = None.
Proof.
  induction d as [|[k0 v0] d IH]; simpl; [reflexivity|]. intros Hn.
  destruct (String.eqb_spec k k0) as [->|Hne]; [tauto|]. apply IH. tauto.
Qed.

Lemma fold_essential response keys acc k :
  dict_get k (fold_left (fun acc key =>
                           match dict_get key response with
                           | Some v => dict_set key v acc
                           | None => acc
                           end) keys acc)
  = if str_in k keys
    then match dict_get k response with Some v => Some v | None => dict_get k acc end
    else dict_get k acc.
Proof.
  revert acc. induction keys as [|key keys IH]; intros acc; simpl; [reflexivity|].
  rewrite IH. destruct (String.eqb_spec k key) as [->|Hne]; simpl.
  - destruct (dict_get key response) as [v|] eqn:Hv.
    + rewrite dict_get_set, String.eqb_refl. destruct (str_in key keys); reflexivity.
    + destruct (str_in key keys); reflexivity.
  - destruct (dict_get key response) as [v|]; [|reflexivity].
    rewrite dict_get_set. destruct (String.eqb_spec k key); [contradiction|reflexivity].
Qed.

Lemma fold_unhandled (keep : string -> bool) items acc k :
  NoDup (List.map fst items) ->
  dict_get k (fold_left (fun acc kv =>
                           if keep (fst kv) then dict_set (fst kv) (snd kv) acc else acc)
                        items acc)
  = if keep k
    then match dict_get k items with Some v => Some v | None => dict_get k acc end
    else dict_get k acc.
Proof.
  revert acc. induction items as [|[k0 v0] items IH]; intros acc Hnd; simpl.
  { destruct (keep k); reflexivity. }
  apply NoDup_cons in Hnd as [Hnotin Hnd]. rewrite (IH _ Hnd). simpl.
  destruct (String.eqb_spec k k0) as [->|Hne].
  - rewrite (dict_get_not_key k0 items) by (rewrite <- list_elem_of_In; exact Hnotin).
    destruct (keep k0); [|reflexivity].
    rewrite dict_get_set, String.eqb_refl. reflexivity.
  - destruct (keep k); [|destruct (keep k0); [|reflexivity]].
    + destruct (dict_get k items); [reflexivity|].
      destruct (keep k0); [|reflexivity].
      rewrite dict_get_set. destruct (String.eqb_spec k k0); [contradiction|reflexivity].
    + rewrite dict_get_set. destruct (String.eqb_spec k k0); [contradiction|reflexivity].
Qed.

(** With DEBUG_MODE on the response passes unchanged; with DEBUG_MODE off
    the only thing ever removed is the 'traceback' of a response whose
    'success' is true or missing: every other key keeps its value. *)
Theorem filter_debug_response_drops_only_traceback DEBUG_MODE response k :
  NoDup (List.map fst response) ->
  dict_get k (filter_debug_response DEBUG_MODE response)
  = if DEBUG_MODE then dict_get k response
    else if String.eqb k "traceback"
         then if py_truthy (default (PBool true) (dict_get "success" response))
              then None else dict_get "traceback" response
         else dict_get k response.
Proof.
  intros Hnd. unfold filter_debug_response. destruct DEBUG_MODE; [reflexivity|].
  rewrite (fold_unhandled
             (fun key => negb (str_in key essential_keys) && negb (str_in key ["traceback"]))
             response _ k Hnd).
  destruct (String.eqb_spec k "traceback") as [->|Hne].
  - cbv beta.
    replace (negb (str_in "traceback" essential_keys) &&
             negb (str_in "traceback" ["traceback"])) with false by reflexivity.
    destruct (py_truthy (default (PBool true) (dict_get "success" response)));
      cbn [negb].
    + rewrite fold_essential. reflexivity.
    + destruct (dict_get "traceback" response) as [v|] eqn:Hv.
      * rewrite dict_get_set. reflexivity.
      * rewrite fold_essential. reflexivity.
  - assert (Htb : str_in k ["traceback"] = false).
    { simpl. destruct (String.eqb_spec k "traceback"); [contradiction|reflexivity]. }
    cbv beta. rewrite Htb, andb_true_r.
    assert (Hrest : dict_get k
              (if negb (py_truthy (default (PBool true) (dict_get "success" response)))
               then match dict_get "traceback" response with
                    | Some v => dict_set "traceback" v
                        (fold_left (fun acc key =>
                                      match dict_get key response with
                                      | Some v => dict_set key v acc
                                      | None => acc
                                      end) essential_keys [])
                    | None => fold_left (fun acc key =>
                                           match dict_get key response with
                                           | Some v => dict_set key v acc
                                           | None => acc
                                           end) essential_keys []
                    end
               else fold_left (fun acc key =>
                                 match dict_get key response with
                                 | Some v => dict_set key v acc
                                 | None => acc
                                 end) essential_keys [])
            = if str_in k essential_keys then dict_get k response else None).
    { destruct (negb _); [destruct (dict_get "traceback" response)|];
        rewrite ?dict_get_set, ?fold_essential;
        try (destruct (String.eqb_spec k "traceback"); [contradiction|]);
        destruct (str_in k essential_keys); try reflexivity;
        destruct (dict_get k response); reflexivity. }
    rewrite Hrest. destruct (str_in k essential_keys); simpl; [reflexivity|].
    destruct (dict_get k response); reflexivity.
Qed.

End FilterDebug.

Lemma filter_debug_response_drops_only_traceback_witness :
  dict_get "traceback" (filter_debug_response false line_result) = None /\
  dict_get "length" (filter_debug_response false line_result) = Some (PFloat "5.0") /\
  dict_get "traceback" (filter_debug_response false line_failure)
  = Some (PStr "Traceback (most recent call last):").
Proof.
  assert (Hnd1 : NoDup (List.map fst line_result))
    by (apply (bool_decide_unpack _); vm_compute; exact I).
  assert (Hnd2 : NoDup (List.map fst line_failure))
    by (apply (bool_decide_unpack _); vm_compute; exact I).
  split; [|split].
  - exact (filter_debug_response_drops_only_traceback false line_result "traceback" Hnd1).
  - exact (filter_debug_response_drops_only_traceback false line_result "length" Hnd1).
  - exact (filter_debug_response_drops_only_traceback false line_failure "traceback" Hnd2).
Defined.

(** The essential keys come first, in the order of the list, then the
    other keys in the order of the response. *)
Example filter_debug_response_order :
  List.map fst (filter_debug_response false
                  [ ("length", PFloat "5.0"); ("message", PStr "ok");
                    ("success", PBool true) ])
  = ["success"; "message"; "length"].
Proof. reflexivity. Qed.

(** ** File names, failed imports and handed-out copies *)

Section FileNames.

Lemma append_cons a (s t : string) : String a s ++ t = String a (s ++ t).
Proof. reflexivity. Qed.

Lemma append_nil (t : string) : "" ++ t = t.
Proof. reflexivity. Qed.

Lemma rev_app_append s1 s2 acc :
  String.rev_app (s1 ++ s2) acc = String.rev_app s2 (String.rev_app s1 acc).
Proof.
  revert acc. induction s1 as [|a s1 IH]; intros acc; [reflexivity|].
  rewrite append_cons. simpl. apply IH.
Qed.

Lemma string_append_assoc (s1 s2 s3 : string) : (s1 ++ s2) ++ s3 = s1 ++ (s2 ++ s3).
Proof.
  induction s1 as [|a s1 IH]; [reflexivity|]. rewrite !append_cons, IH. reflexivity.
Qed.

Lemma rev_app_acc s acc : String.rev_app s acc = String.rev s ++ acc.
Proof.
  unfold String.rev. revert acc. induction s as [|a s IH]; intros acc; [reflexivity|].
  simpl. rewrite IH, (IH (String a "")), string_append_assoc. reflexivity.
Qed.

Lemma rev_rev s : String.rev (String.rev s) = s.
Proof.
  induction s as [|a s IH]; [reflexivity|].
  unfold String.rev at 2. simpl. rewrite rev_app_acc.
  unfold String.rev at 1. rewrite rev_app_append. fold (String.rev (String.rev s)).
  rewrite IH. reflexivity.
Qed.

Lemma substring_append n s : String.substring 0 (String.length n) (n ++ s) = n.
Proof.
  induction n as [|a n IH]; [destruct s; reflexivity|].
  rewrite append_cons. simpl. rewrite IH. reflexivity.
Qed.

Lemma length_append_py n : String.length (n ++ ".py") = (String.length n + 3)%nat.
Proof.
  induction n as [|a n IH]; [reflexivity|]. rewrite append_cons. simpl. rewrite IH.
  reflexivity.
Qed.

(** The loop over the directory takes exactly the names of the form
    [n ++ ".py"], and the module name it imports for such a file is [n]
    again. *)
Theorem module_name_roundtrip :
  (forall n, endswith ".py" (n ++ ".py") = true /\ module_name_of (n ++ ".py") = n) /\
  (forall f, endswith ".py" f = true -> exists n, f = n ++ ".py") /\
  (forall n, n <> "__init__" -> n <> "tool_registry" -> is_tool_file (n ++ ".py") = true) /\
  is_tool_file "__init__.py" = false /\ is_tool_file "tool_registry.py" = false.
Proof.
  split; [|split; [|split; [|split; reflexivity]]].
  - intros n. split.
    + unfold endswith, String.rev. rewrite rev_app_append. simpl.
      repeat (destruct (ascii_dec _ _); [|congruence]).
      destruct (String.rev_app n ""); reflexivity.
    + unfold module_name_of, str_prefix. rewrite length_append_py.
      replace (String.length n + 3 - 3)%nat with (String.length n) by lia.
      apply substring_append.
  - intros f Hend. unfold endswith in Hend.
    destruct (String.rev f) as [|a1 [|a2 [|a3 m]]] eqn:Hrev; simpl in Hend;
      try discriminate;
      repeat match type of Hend with
             | (if ?d then _ else _) = true => destruct d; [subst|discriminate]
             end; try discriminate.
    exists (String.rev m). rewrite <- (rev_rev f), Hrev.
    unfold String.rev at 1. simpl. rewrite rev_app_acc. reflexivity.
  - intros n Hi Ht. unfold is_tool_file.
    assert (Hend : endswith ".py" (n ++ ".py") = true).
    { unfold endswith, String.rev. rewrite rev_app_append. simpl.
      repeat (destruct (ascii_dec _ _); [|congruence]).
      destruct (String.rev_app n ""); reflexivity. }
    rewrite Hend. simpl.
    destruct (String.eqb_spec (n ++ ".py") "__init__.py") as [He|_].
    { exfalso. apply Hi. change "__init__.py" with ("__init__" ++ ".py") in He.
      apply (f_equal String.rev) in He. unfold String.rev in He.
      rewrite !rev_app_append in He. simpl in He. injection He as He.
      rewrite <- (rev_rev n). unfold String.rev at 2. rewrite He. reflexivity. }
    destruct (String.eqb_spec (n ++ ".py") "tool_registry.py") as [He|_]; [|reflexivity].
    exfalso. apply Ht. change "tool_registry.py" with ("tool_registry" ++ ".py") in He.
    apply (f_equal String.rev) in He. unfold String.rev in He.
    rewrite !rev_app_append in He. simpl in He. injection He as He.
    rewrite <- (rev_rev n). unfold String.rev at 2. rewrite He. reflexivity.
Qed.

End FileNames.

Lemma module_name_roundtrip_witness : exists n, "gh_tools.py" = n ++ ".py".
Proof.
  exact (proj1 (proj2 module_name_roundtrip) "gh_tools.py" eq_refl).
Defined.

Section FailedImports.

Variable H : Host.
Variable E : ImportEnv.

(** What a module registered before its import failed is not taken back:
    after the warning the registries hold the decorator applications that
    ran before the statement that raised. *)
Theorem failed_import_keeps_registrations module_name body e w :
  find_module E (tools_dir H) module_name = Some body ->
  first_raise body = Some e ->
  isinstance e ImportError = false ->
  isinstance e Exception = true ->
  let w' := fst (discover_one H E module_name w) in
  registry w' = replay H (executed body) (registry w) /\
  decorated w' = (decorated w ++ executed body)%list /\
  console w' = (console w ++ [MWarning module_name e])%list /\
  (module_name ∈ sys_modules w' <-> module_name ∈ sys_modules w).
Proof.
  intros Hfind Hfr Hni Hexc. unfold discover_one, import_attempt, import_module, reload.
  simpl. destruct (bool_decide_reflect (module_name ∈ sys_modules w)) as [Hin|Hnin];
    simpl; rewrite Hfind; rewrite exec_body_spec, Hfr; simpl; rewrite Hni, Hexc; simpl.
  - repeat split; auto.
  - repeat split; try reflexivity.
    + intros [_ Hc]%elem_of_difference. exfalso. apply Hc, elem_of_singleton. reflexivity.
    + intros Hc. contradiction.
Qed.

End FailedImports.

Lemma failed_import_keeps_registrations_witness :
  let body := [ SGhTool (Some "list_gh_files") None "list_gh_files";
                SRaise (ValueError_ "bad default") ] in
  let E := mkEnv ["gh_tools.py"] (fun _ _ => Some body) in
  let w' := fst (discover_one host E "gh_tools" fresh_world) in
  registry w' = replay host (executed body) (registry fresh_world) /\
  decorated w' = (decorated fresh_world ++ executed body)%list /\
  console w' = (console fresh_world ++ [MWarning "gh_tools" (ValueError_ "bad default")])%list /\
  ("gh_tools" ∈ sys_modules w' <-> "gh_tools" ∈ sys_modules fresh_world).
Proof.
  apply (failed_import_keeps_registrations host
           (mkEnv ["gh_tools.py"]
                  (fun _ _ => Some [ SGhTool (Some "list_gh_files") None "list_gh_files";
                                     SRaise (ValueError_ "bad default") ]))
           "gh_tools"
           [ SGhTool (Some "list_gh_files") None "list_gh_files";
             SRaise (ValueError_ "bad default") ]
           (ValueError_ "bad default") fresh_world); reflexivity.
Defined.

Section Copies.

Import Objects.

(** Two calls of [get_bridge_handlers] hand out two different dict
    objects, and what is done to the first does not show in the
    second. *)
Theorem copies_are_independent st ops d :
  registry_items st = Some d ->
  let '(st1, r1) := get_bridge_handlers st in
  let '(st2, r2) := get_bridge_handlers st1 in
  r1 <> r2 /\
  items r2 (mutate_all r1 ops st2) = Some d /\
  items r1 (mutate_all r1 ops st2) = Some (fold_left (fun d op => apply_op op d) ops d).
Proof.
  intros Hd. unfold get_bridge_handlers, registry_items in *.
  pose proof (dict_copy_spec (bridge_handlers_ref st) st d Hd) as H1.
  destruct (dict_copy (bridge_handlers_ref st) st) as [st1 r1].
  destruct H1 as (Hne & Hr1 & Href & Hother).
  assert (Hd1 : items (bridge_handlers_ref st1) st1 = Some d).
  { rewrite Href, Hother by congruence. exact Hd. }
  assert (Hfresh : items (fresh (dom (objects st1))) st1 = None).
  { apply not_elem_of_dom_1, is_fresh. }
  pose proof (dict_copy_spec (bridge_handlers_ref st1) st1 d Hd1) as H2.
  unfold dict_copy in *. simpl in *.
  destruct H2 as (Hne2 & Hr2 & Href2 & Hother2).
  assert (Hr12 : r1 <> fresh (dom (objects st1))).
  { intros Heq. rewrite <- Heq, Hr1 in Hfresh. discriminate. }
  split; [exact Hr12|]. split.
  - rewrite mutate_all_other by exact Hr12. exact Hr2.
  - apply mutate_all_same. rewrite Hother2 by exact Hr12. exact Hr1.
Qed.

End Copies.

Lemma copies_are_independent_witness :
  let '(st1, r1) := Objects.get_bridge_handlers one_handler_store in
  let '(st2, r2) := Objects.get_bridge_handlers st1 in
  r1 <> r2 /\
  Objects.items r2 (Objects.mutate_all r1 [Objects.Clear] st2)
  = Some {[ "/draw_line" := wrapper host "/draw_line" failing_handler ]} /\
  Objects.items r1 (Objects.mutate_all r1 [Objects.Clear] st2)
  = Some (fold_left (fun d op => Objects.apply_op op d) [Objects.Clear]
            {[ "/draw_line" := wrapper host "/draw_line" failing_handler ]}).
Proof.
  apply (copies_are_independent one_handler_store [Objects.Clear]
           {[ "/draw_line" := wrapper host "/draw_line" failing_handler ]}).
  apply lookup_singleton_eq.
Defined.

(** Every tool that goes to the bridge posts to an endpoint for which the
    tool modules decorate a handler. *)
Theorem every_tool_has_a_handler (t : ToolCall) :
  In (fst (bridge_arguments t)) handler_endpoints.
Proof. destruct t; simpl; auto 12. Qed.

Lemma bridge_handler_last_wins_witness :
  _bridge_handlers
    (bridge_handler host "/draw_line" guid_handler
       (bridge_handler host "/draw_line" failing_handler
          (bridge_handler host "/list_gh_files" bare_dict_handler empty_registry)))
    !! "/list_gh_files"
  = _bridge_handlers (bridge_handler host "/list_gh_files" bare_dict_handler empty_registry)
      !! "/list_gh_files".
Proof.
  apply (proj1 (proj2 (proj2
           (bridge_handler_last_wins host "/draw_line" failing_handler guid_handler
              (bridge_handler host "/list_gh_files" bare_dict_handler empty_registry))))).
  discriminate.
Defined.

Lemma wrapper_error_replies_serializable_witness :
  json_serializable
    (exception_response host "/draw_line" failing_handler (PDict [])
       (ValueError_ "could not convert string to float")) = true /\
  get_item "success"
    (exception_response host "/draw_line" failing_handler (PDict [])
       (ValueError_ "could not convert string to float")) = Some (PBool false).
Proof.
  apply (wrapper_error_replies_serializable host "/draw_line" failing_handler (PDict []));
    [reflexivity|reflexivity|discriminate].
Defined.

Lemma traceback_lines_last_ten_witness :
  exists lines pre,
    get_item "traceback_lines"
      (exception_response host "/draw_line" failing_handler (PDict [])
         (ValueError_ "could not convert string to float"))
    = Some (PList (List.map PStr lines)) /\
    split_lines "Traceback (most recent call last):" = (pre ++ lines)%list /\
    lines = split_lines "Traceback (most recent call last):".
Proof.
  destruct (traceback_lines_last_ten host "/draw_line" failing_handler (PDict [])
              (ValueError_ "could not convert string to float"))
    as (lines & pre & Hget & Hsplit & _ & Hall).
  exists lines, pre. split; [exact Hget|]. split; [exact Hsplit|].
  apply Hall. simpl. lia.
Defined.

Lemma find_file_line_spec_witness :
  find_file_line (tools_dir host)
    [ "Traceback (most recent call last):";
      "  File C:\aag25_mcp\Tools\gh_tools.py, line 544, in handle_set_slider" ]
  = strip "  File C:\aag25_mcp\Tools\gh_tools.py, line 544, in handle_set_slider".
Proof.
  apply (proj2 (find_file_line_spec host
                  [ "Traceback (most recent call last):";
                    "  File C:\aag25_mcp\Tools\gh_tools.py, line 544, in handle_set_slider" ])
           ["Traceback (most recent call last):"]
           "  File C:\aag25_mcp\Tools\gh_tools.py, line 544, in handle_set_slider" []);
    [reflexivity|repeat constructor|reflexivity].
Defined.

Lemma discover_tools_registers_wrappers_only_witness :
  exists f,
    wrapper host "/draw_line" failing_handler = wrapper host "/draw_line" f.
Proof.
  apply (discover_tools_registers_wrappers_only host tools_env fresh_world "/draw_line").
  vm_compute. reflexivity.
Defined.
